(** * Workflow graph generator: builder, SVG renderer and DOT renderer

    A shallow embedding of [src/graphGenerator.ts] and the properties of its
    three exported functions [generateGraphData], [generateSVG] and
    [generateDot].

    Conventions of the embedding:
    - a TypeScript [string] is a [string]; the template literals of the
      source are written with [+:+];
    - a TypeScript [number] is an IEEE-754 double, modelled by the Standard
      Library's [spec_float]; the program only copies numbers and prints
      two of them;
    - an optional field ([latency?: number]) is an [option]; [None] stands
      both for a key that is missing and for a key that holds [undefined],
      which no function of this file can tell apart;
    - [new Map(...)] is a [gmap], [new Set()] is a [gset];
    - an array filled by [push] in a [for ... of] loop is a [fold_left]
      whose accumulator is the array built so far;
    - a call that can throw returns a [Completion]: the value it returns
      or the error it throws. *)

From Stdlib Require Import Floats.SpecFloat Ascii.
From stdpp Require Import gmap strings list fin_maps.

#[local] Set Warnings "-clear-no-such-hyp".
Local Open Scope stdpp_scope.

(** ** Data model *)

Definition number : Type := spec_float.

(** [type: 'agent' | 'start' | 'end'] *)
Inductive NodeType : Type :=
  | type_agent
  | type_start
  | type_end.

#[global] Instance NodeType_eq_dec : EqDecision NodeType.
Proof. solve_decision. Defined.

(** The string a [NodeType] is at run time, as interpolated by
    [`node-${node.type}`]. *)
Definition NodeType_to_string (t : NodeType) : string :=
  match t with
  | type_agent => "agent"
  | type_start => "start"
  | type_end => "end"
  end.

Module GraphNode.
Record t : Type := mk {
  id : string;
  label : string;
  type : NodeType;
  latency : option number;
  cost : option number;
  isBottleneck : option bool
}.
End GraphNode.

Module GraphEdge.
Record t : Type := mk {
  source : string;
  target : string;
  label : option string
}.
End GraphEdge.

Module GraphData.
Record t : Type := mk {
  nodes : list GraphNode.t;
  edges : list GraphEdge.t
}.
End GraphData.

(** An element of [workflow.steps]. *)
Module WorkflowStep.
Record t : Type := mk {
  id : string;
  agentId : string;
  agentName : string;
  dependencies : list string;
  inputTokens : option number;
  outputTokens : option number
}.
End WorkflowStep.

(** An element of [workflow.stepAnalysis]. *)
Module StepAnalysis.
Record t : Type := mk {
  stepId : string;
  latency : number;
  cost : number;
  isBottleneck : bool
}.
End StepAnalysis.

Module Workflow.
Record t : Type := mk {
  id : string;
  steps : list WorkflowStep.t;
  stepAnalysis : option (list StepAnalysis.t)
}.
End Workflow.

(** ** The graph builder *)

(** [arr.push(x)] *)
Definition push {A : Type} (arr : list A) (x : A) : list A := arr ++ [x].

(** [workflow.stepAnalysis || []], and
    [new Map((workflow.stepAnalysis || []).map(s => [s.stepId, s]))]: the
    constructor sets the pairs in array order, so a later entry
    replaces an earlier one with the same key. *)
Definition analysisEntries (workflow : Workflow.t) : list StepAnalysis.t :=
  default [] (Workflow.stepAnalysis workflow).

Definition stepAnalysisMap (workflow : Workflow.t) : gmap string StepAnalysis.t :=
  fold_left (fun m s => <[StepAnalysis.stepId s := s]> m)
            (analysisEntries workflow) ∅.

Definition startNode : GraphNode.t :=
  GraphNode.mk "start" "Start" type_start None None None.

Definition endNode : GraphNode.t :=
  GraphNode.mk "end" "End" type_end None None None.

(** The object pushed for a step; [analysis?.latency] is [undefined] when
    [stepAnalysisMap.get(step.id)] is. *)
Definition agentNode (m : gmap string StepAnalysis.t) (step : WorkflowStep.t)
  : GraphNode.t :=
  let analysis := m !! WorkflowStep.id step in
  GraphNode.mk (WorkflowStep.id step)
               (WorkflowStep.agentName step)
               type_agent
               (StepAnalysis.latency <$> analysis)
               (StepAnalysis.cost <$> analysis)
               (StepAnalysis.isBottleneck <$> analysis).

(** Lines 83-88: for every [dep] of every step the set receives [step.id]
    (not [dep]). *)
Definition dependentSteps (steps : list WorkflowStep.t) : gset string :=
  fold_left
    (fun acc step =>
       fold_left (fun acc' _dep => {[WorkflowStep.id step]} ∪ acc')
                 (WorkflowStep.dependencies step) acc)
    steps ∅.

Definition startEdge (step : WorkflowStep.t) : GraphEdge.t :=
  GraphEdge.mk "start" (WorkflowStep.id step) None.

Definition depEdge (step : WorkflowStep.t) (dep : string) : GraphEdge.t :=
  GraphEdge.mk dep (WorkflowStep.id step) None.

Definition endEdge (step : WorkflowStep.t) : GraphEdge.t :=
  GraphEdge.mk (WorkflowStep.id step) "end" None.

Definition generateGraphData (workflow : Workflow.t) : GraphData.t :=
  let steps := Workflow.steps workflow in
  let nodes : list GraphNode.t := [] in
  let edges : list GraphEdge.t := [] in
  let m := stepAnalysisMap workflow in
  (* Add start node *)
  let nodes := push nodes startNode in
  (* Add agent nodes *)
  let nodes := fold_left (fun nodes step => push nodes (agentNode m step))
                         steps nodes in
  (* Add end node *)
  let nodes := push nodes endNode in
  (* Create edges based on dependencies *)
  let dependent := dependentSteps steps in
  (* Connect start to root nodes (no dependencies) *)
  let edges :=
    fold_left
      (fun edges step =>
         if Nat.eqb (length (WorkflowStep.dependencies step)) 0
         then push edges (startEdge step)
         else edges)
      steps edges in
  (* Connect dependencies *)
  let edges :=
    fold_left
      (fun edges step =>
         fold_left (fun edges dep => push edges (depEdge step dep))
                   (WorkflowStep.dependencies step) edges)
      steps edges in
  (* Connect leaf nodes (no dependents) to end *)
  let edges :=
    fold_left
      (fun edges step =>
         if decide (WorkflowStep.id step ∈ dependent)
         then edges
         else push edges (endEdge step))
      steps edges in
  GraphData.mk nodes edges.

(** What each of the three edge loops appends for one step. *)
Definition startEdgesOf (step : WorkflowStep.t) : list GraphEdge.t :=
  if Nat.eqb (length (WorkflowStep.dependencies step)) 0
  then [startEdge step] else [].

Definition depEdgesOf (step : WorkflowStep.t) : list GraphEdge.t :=
  map (depEdge step) (WorkflowStep.dependencies step).

Definition endEdgesOf (dependent : gset string) (step : WorkflowStep.t)
  : list GraphEdge.t :=
  if decide (WorkflowStep.id step ∈ dependent) then [] else [endEdge step].

(** ** The renderers *)

(** The characters that a Rocq string literal cannot hold as they are. *)
Definition dq : string := String "034"%char EmptyString.
Definition nl : string := String "010"%char EmptyString.

(** [s] between double quotes, as in [class="${className}"]. *)
Definition quoted (s : string) : string := dq +:+ s +:+ dq.

(** [if (node.isBottleneck)]: of [undefined], [false] and [true] only
    [true] is truthy. *)
Definition truthy (b : option bool) : bool :=
  match b with
  | Some true => true
  | _ => false
  end.

(** The default values [800] and [600] of [width] and [height]. *)
Definition default_width : number := S754_finite false 800 0.
Definition default_height : number := S754_finite false 600 0.

Definition svgStyle : string :=
  "<style>" +:+ nl +:+
  "    .node-agent { fill: #4a90d9; }" +:+ nl +:+
  "    .node-start { fill: #27ae60; }" +:+ nl +:+
  "    .node-end { fill: #e74c3c; }" +:+ nl +:+
  "    .node-bottleneck { fill: #f39c12; }" +:+ nl +:+
  "    .edge { stroke: #999; stroke-width: 2; }" +:+ nl +:+
  "    .label { font-family: Arial; font-size: 12px; }" +:+ nl +:+
  "  </style>".

(** *** What [generateSVG] uses of the library [d3]

    [d3] is an external library, not code of this repository. The three
    definitions below follow the behaviour of its [select] and of the
    initialisation of a [forceLink] force registered on a simulation, as
    far as the value of [generateSVG] depends on them. What [d3] adds to
    the node objects ([index], [x], [y], [vx], [vy]) is never printed and
    is left out. *)

(** What a call throws. *)
Inductive Thrown : Type :=
  | ReferenceError (message : string)
  | Error (message : string).

(** How a call completes. *)
Inductive Completion : Type :=
  | Returns (value : string)
  | Throws (error : Thrown).

(** An element of [data.edges] once [forceLink] has initialised it:
    [source] and [target] hold the node objects instead of their
    identifiers. *)
Module SimulationLink.
Record t : Type := mk {
  source : GraphNode.t;
  target : GraphNode.t;
  label : option string
}.
End SimulationLink.

(** [new Map(nodes.map(d => [d.id, d]))], with the accessor
    [.id(d => d.id)] of line 131. *)
Definition nodeById (nodes : list GraphNode.t) : gmap string GraphNode.t :=
  fold_left (λ m d, <[GraphNode.id d := d]> m) nodes ∅.

(** [find(nodeById, nodeId)]: the node, or the error for an identifier
    that no node has. *)
Definition find (byId : gmap string GraphNode.t) (nodeId : string)
  : Thrown + GraphNode.t :=
  match byId !! nodeId with
  | Some node => inr node
  | None => inl (Error ("node not found: " +:+ nodeId))
  end.

(** The loop over the links: the source, then the target of each link in
    turn is replaced by its node; the first identifier without a node
    ends the loop with its error. *)
Fixpoint initializeLinks (byId : gmap string GraphNode.t)
    (links : list GraphEdge.t) : Thrown + list SimulationLink.t :=
  match links with
  | [] => inr []
  | link :: links' =>
      match find byId (GraphEdge.source link) with
      | inl error => inl error
      | inr source =>
          match find byId (GraphEdge.target link) with
          | inl error => inl error
          | inr target =>
              match initializeLinks byId links' with
              | inl error => inl error
              | inr rest =>
                  inr (SimulationLink.mk source target (GraphEdge.label link)
                         :: rest)
              end
          end
      end
  end.

(** [`${value}`] for a node object: an object without a [toString] of its
    own. *)
Definition object_to_string (node : GraphNode.t) : string := "[object Object]".

(** Line 148, on an edge of the simulation. *)
Definition svgLine (edge : SimulationLink.t) : string :=
  "<line class=" +:+ quoted "edge" +:+
  " x1=" +:+ quoted "0" +:+ " y1=" +:+ quoted "0" +:+
  " x2=" +:+ quoted "0" +:+ " y2=" +:+ quoted "0" +:+
  " data-source=" +:+ quoted (object_to_string (SimulationLink.source edge)) +:+
  " data-target=" +:+ quoted (object_to_string (SimulationLink.target edge)) +:+
  "/>".

(** Lines 153-154: the class is [node-<type>], replaced by
    [node-bottleneck] when the flag is truthy. *)
Definition svgClassName (node : GraphNode.t) : string :=
  let className := "node-" +:+ NodeType_to_string (GraphNode.type node) in
  if truthy (GraphNode.isBottleneck node) then "node-bottleneck" else className.

Definition svgCircle (node : GraphNode.t) : string :=
  "<circle class=" +:+ quoted (svgClassName node) +:+
  " r=" +:+ quoted "20" +:+ " cx=" +:+ quoted "0" +:+ " cy=" +:+ quoted "0" +:+
  " data-id=" +:+ quoted (GraphNode.id node) +:+ "/>".

Definition svgTextOpen : string :=
  "<text class=" +:+ quoted "label" +:+
  " x=" +:+ quoted "0" +:+ " y=" +:+ quoted "35" +:+
  " text-anchor=" +:+ quoted "middle" +:+ ">".

(** What [${node.label}] puts between [<text ...>] and [</text>]. *)
Definition svgLabelText (node : GraphNode.t) : string := GraphNode.label node.

Definition svgText (node : GraphNode.t) : string :=
  svgTextOpen +:+ svgLabelText node +:+ "</text>".

Section SVG.
(** How the JavaScript run time prints a number in a template literal;
    only [width] and [height] are printed. *)
Variable Number_toString : number → string.

(** Whether the host has a global [document], which [d3.select('svg')]
    reads. *)
Variable document_defined : bool.

Definition svgOpen (width height : number) : string :=
  "<svg width=" +:+ quoted (Number_toString width) +:+
  " height=" +:+ quoted (Number_toString height) +:+
  " xmlns=" +:+ quoted "http://www.w3.org/2000/svg" +:+ ">".

(** The edge objects of [data.edges] are updated in place by the
    simulation; the loop of line 147 reads them after that. The update of
    the caller's objects does not show in the value returned and is not
    part of this function's result. *)
Definition generateSVG (data : GraphData.t) (width height : option number)
  : Completion :=
  let width := default default_width width in
  let height := default default_height height in
  (* const svg = d3.select('svg') *)
  if negb document_defined
  then Throws (ReferenceError "document is not defined")
  else
  (* Create force simulation: .force('link', d3.forceLink(data.edges).id(...)) *)
  match initializeLinks (nodeById (GraphData.nodes data))
                        (GraphData.edges data) with
  | inl error => Throws error
  | inr edges =>
      (* Create SVG string *)
      let svgContent := svgOpen width height in
      let svgContent := svgContent +:+ svgStyle in
      (* Add edges *)
      let svgContent :=
        fold_left (λ svgContent edge, svgContent +:+ svgLine edge)
                  edges svgContent in
      (* Add nodes *)
      let svgContent :=
        fold_left
          (λ svgContent node,
             let svgContent := svgContent +:+ svgCircle node in
             svgContent +:+ svgText node)
          (GraphData.nodes data) svgContent in
      Returns (svgContent +:+ "</svg>")
  end.
End SVG.

(** Lines 174-182: the attribute list of a node. *)
Definition dotAttrs (node : GraphNode.t) : string :=
  let attrs := "label=" +:+ quoted (GraphNode.label node) in
  if decide (GraphNode.type node = type_start)
  then attrs +:+ ", shape=circle, style=filled, fillcolor=green"
  else if decide (GraphNode.type node = type_end)
  then attrs +:+ ", shape=circle, style=filled, fillcolor=red"
  else if truthy (GraphNode.isBottleneck node)
  then attrs +:+ ", style=filled, fillcolor=orange"
  else attrs.

Definition dotNode (node : GraphNode.t) : string :=
  "  " +:+ quoted (GraphNode.id node) +:+ " [" +:+ dotAttrs node +:+ "];" +:+ nl.

Definition dotEdge (edge : GraphEdge.t) : string :=
  "  " +:+ quoted (GraphEdge.source edge) +:+ " -> " +:+
  quoted (GraphEdge.target edge) +:+ ";" +:+ nl.

(** The three lines that open every DOT document. *)
Definition dotHeader : string :=
  "digraph workflow {" +:+ nl +:+
  "  rankdir=LR;" +:+ nl +:+
  "  node [shape=box, style=rounded];" +:+ nl.

Definition generateDot (data : GraphData.t) : string :=
  let dot := "digraph workflow {" +:+ nl in
  let dot := dot +:+ "  rankdir=LR;" +:+ nl in
  let dot := dot +:+ "  node [shape=box, style=rounded];" +:+ nl in
  (* Define nodes *)
  let dot := fold_left (λ dot node, dot +:+ dotNode node)
                       (GraphData.nodes data) dot in
  (* Define edges *)
  let dot := fold_left (λ dot edge, dot +:+ dotEdge edge)
                       (GraphData.edges data) dot in
  dot +:+ "}" +:+ nl.

(** ** Notions used to state the properties *)

Definition node_ids (data : GraphData.t) : list string :=
  map GraphNode.id (GraphData.nodes data).

(** No edge of [data] names a node that [data] does not have. *)
Definition no_dangling_edges (data : GraphData.t) : Prop :=
  ∀ edge, edge ∈ GraphData.edges data →
    GraphEdge.source edge ∈ node_ids data ∧
    GraphEdge.target edge ∈ node_ids data.


(** The number of edges from [src] to [tgt]. *)
Definition count_edges (src tgt : string) (edges : list GraphEdge.t) : nat :=
  length
    (filter (λ edge, GraphEdge.source edge = src ∧ GraphEdge.target edge = tgt)
            edges).

(** *** Strings *)

(** [s.startsWith(pat)] *)
Fixpoint starts_with (pat s : string) : bool :=
  match pat with
  | EmptyString => true
  | String a pat' =>
      match s with
      | EmptyString => false
      | String b s' => Ascii.eqb a b && starts_with pat' s'
      end
  end.

(** [s.endsWith(suffix)] *)
Fixpoint ends_with (suffix s : string) : bool :=
  String.eqb s suffix ||
  match s with
  | EmptyString => false
  | String _ s' => ends_with suffix s'
  end.

(** [s.includes(pat)] *)
Fixpoint includes (pat s : string) : bool :=
  starts_with pat s ||
  match s with
  | EmptyString => false
  | String _ s' => includes pat s'
  end.

(** The number of positions of [s] at which [pat] starts. *)
Fixpoint occurrences (pat s : string) : nat :=
  match s with
  | EmptyString => 0
  | String c s' =>
      (if starts_with pat (String c s') then 1 else 0) + occurrences pat s'
  end.

(** The concatenation of the pieces, in order. *)
Fixpoint join (pieces : list string) : string :=
  match pieces with
  | [] => EmptyString
  | piece :: pieces' => piece +:+ join pieces'
  end.

(** Text that is safe as XML character data and in an attribute value:
    no [<], [>] or quote as it is, and [&] only at the start of a
    character or entity reference. *)
Definition xml_special (c : ascii) : bool :=
  Ascii.eqb c "<" || Ascii.eqb c ">" || Ascii.eqb c "034" || Ascii.eqb c "'".

Definition starts_reference (s : string) : bool :=
  starts_with "&lt;" s || starts_with "&gt;" s || starts_with "&amp;" s ||
  starts_with "&quot;" s || starts_with "&apos;" s || starts_with "&#" s.

Fixpoint xml_escaped (s : string) : bool :=
  match s with
  | EmptyString => true
  | String c s' =>
      negb (xml_special c) &&
      (negb (Ascii.eqb c "&") || starts_reference (String c s')) &&
      xml_escaped s'
  end.

(** *** The renderers *)

(** The label text of every node is escaped in the SVG document. *)
Definition svg_labels_escaped : Prop :=
  ∀ (data : GraphData.t) (node : GraphNode.t),
    node ∈ GraphData.nodes data → xml_escaped (svgLabelText node) = true.

(** The class of a node by the rule of the specification, first match
    wins: start, end, bottleneck, agent. *)
Definition firstMatchClass (node : GraphNode.t) : string :=
  match GraphNode.type node with
  | type_start => "node-start"
  | type_end => "node-end"
  | type_agent =>
      if truthy (GraphNode.isBottleneck node) then "node-bottleneck"
      else "node-agent"
  end.

(** The round-trip smoke test of the DOT renderer on a workflow. *)
Definition dot_smoke_test (workflow : Workflow.t) : Prop :=
  let data := generateGraphData workflow in
  starts_with "digraph workflow {" (generateDot data) = true ∧
  ends_with ("}" +:+ nl) (generateDot data) = true ∧
  occurrences "->" (generateDot data) = length (GraphData.edges data).

(** No identifier, agent name or dependency of the workflow contains
    [->]. *)
Definition arrow_free (workflow : Workflow.t) : Prop :=
  Forall
    (λ step,
       occurrences "->" (WorkflowStep.id step) = 0 ∧
       occurrences "->" (WorkflowStep.agentName step) = 0 ∧
       Forall (λ dep, occurrences "->" dep = 0)
              (WorkflowStep.dependencies step))
    (Workflow.steps workflow).

(** *** The builder *)

(** Every step without a dependency has exactly one edge from [start]. *)
Definition roots_have_one_start_edge (workflow : Workflow.t) : Prop :=
  ∀ step, step ∈ Workflow.steps workflow →
    WorkflowStep.dependencies step = [] →
    count_edges "start" (WorkflowStep.id step)
                (GraphData.edges (generateGraphData workflow)) = 1.

(** The node carries the three values of the entry. *)
Definition carries (node : GraphNode.t) (entry : StepAnalysis.t) : Prop :=
  GraphNode.latency node = Some (StepAnalysis.latency entry) ∧
  GraphNode.cost node = Some (StepAnalysis.cost entry) ∧
  GraphNode.isBottleneck node = Some (StepAnalysis.isBottleneck entry).

(** The three fields are absent on the node. *)
Definition carries_nothing (node : GraphNode.t) : Prop :=
  GraphNode.latency node = None ∧
  GraphNode.cost node = None ∧
  GraphNode.isBottleneck node = None.

(** The node of every step carries the values of every entry of
    [stepAnalysis] that has the identifier of the step, and nothing when
    there is no such entry. *)
Definition nodes_carry_every_entry (workflow : Workflow.t) : Prop :=
  ∀ i step, Workflow.steps workflow !! i = Some step →
    ∃ node, GraphData.nodes (generateGraphData workflow) !! S i = Some node ∧
      (∀ entry, entry ∈ analysisEntries workflow →
         StepAnalysis.stepId entry = WorkflowStep.id step →
         carries node entry) ∧
      ((∀ entry, entry ∈ analysisEntries workflow →
          StepAnalysis.stepId entry ≠ WorkflowStep.id step) →
       carries_nothing node).

(** The workflow of the worked example: [s1] (agent Fetcher, no
    dependencies) and [s2] (agent Parser, depends on [s1]), no
    [stepAnalysis]. *)
Definition example_s1 : WorkflowStep.t :=
  WorkflowStep.mk "s1" "a1" "Fetcher" [] None None.

Definition example_s2 : WorkflowStep.t :=
  WorkflowStep.mk "s2" "a2" "Parser" ["s1"] None None.

Definition example_workflow : Workflow.t :=
  Workflow.mk "w" [example_s1; example_s2] None.

(** A workflow whose only step depends on a step that does not exist. *)
Definition dangling_workflow : Workflow.t :=
  Workflow.mk "w" [WorkflowStep.mk "s1" "a1" "Solo" ["ghost"] None None] None.

(** Two steps that share the identifier [a], both without dependency. *)
Definition twin_workflow : Workflow.t :=
  Workflow.mk "w"
    [ WorkflowStep.mk "a" "a1" "First" [] None None;
      WorkflowStep.mk "a" "a2" "Second" [] None None ]
    None.

(** Steps called [end] and [start], both without dependency. *)
Definition sentinel_named_workflow : Workflow.t :=
  Workflow.mk "w"
    [ WorkflowStep.mk "end" "a1" "First" [] None None;
      WorkflowStep.mk "start" "a2" "Second" [] None None ]
    None.

(** One step and two analysis entries for it. *)
Definition one : number := S754_finite false 1 0.
Definition two : number := S754_finite false 2 0.

Definition first_entry : StepAnalysis.t := StepAnalysis.mk "s1" one one false.
Definition second_entry : StepAnalysis.t := StepAnalysis.mk "s1" two two true.

Definition twice_analysed_workflow : Workflow.t :=
  Workflow.mk "w" [example_s1] (Some [first_entry; second_entry]).

(** A graph whose start node is flagged as a bottleneck. *)
Definition flagged_start_node : GraphNode.t :=
  GraphNode.mk "start" "Start" type_start None None (Some true).

Definition flagged_start_data : GraphData.t :=
  GraphData.mk [flagged_start_node] [].

(** A graph whose only node has markup for a label. *)
Definition markup_node : GraphNode.t :=
  GraphNode.mk "s1" "<b>R&D</b>" type_agent None None None.

Definition markup_data : GraphData.t := GraphData.mk [markup_node] [].

(** The same node, with an edge from the node to itself. *)
Definition markup_loop_data : GraphData.t :=
  GraphData.mk [markup_node] [GraphEdge.mk "s1" "s1" None].

(** A workflow whose only step has an arrow in the name of its agent. *)
Definition arrow_named_workflow : Workflow.t :=
  Workflow.mk "w" [WorkflowStep.mk "s1" "a1" "A->B" [] None None] None.

(** *** The SVG renderer *)

(** The first endpoint, in the order of the edge list and the source of
    an edge before its target, that is not among [ids]. *)
Fixpoint first_missing (ids : list string) (edges : list GraphEdge.t)
  : option string :=
  match edges with
  | [] => None
  | edge :: edges' =>
      if decide (GraphEdge.source edge ∈ ids)
      then if decide (GraphEdge.target edge ∈ ids)
           then first_missing ids edges'
           else Some (GraphEdge.target edge)
      else Some (GraphEdge.source edge)
  end.

(** The [line] element of an edge whose endpoints are node objects. *)
Definition objectLine : string :=
  "<line class=" +:+ quoted "edge" +:+
  " x1=" +:+ quoted "0" +:+ " y1=" +:+ quoted "0" +:+
  " x2=" +:+ quoted "0" +:+ " y2=" +:+ quoted "0" +:+
  " data-source=" +:+ quoted "[object Object]" +:+
  " data-target=" +:+ quoted "[object Object]" +:+ "/>".

(** The SVG document of a graph: the opening tag, the style block, a
    line for each edge, a circle and a text for each node, the closing
    tag. *)
Definition svgDocument (Number_toString : number → string)
    (data : GraphData.t) (width height : option number) : string :=
  svgOpen Number_toString (default default_width width)
                          (default default_height height)
  +:+ svgStyle
  +:+ join (replicate (length (GraphData.edges data)) objectLine)
  +:+ join (map (λ node, svgCircle node +:+ svgText node)
                (GraphData.nodes data))
  +:+ "</svg>".

(** ** Notions used to state further properties *)

Definition step_ids (workflow : Workflow.t) : list string :=
  map WorkflowStep.id (Workflow.steps workflow).

(** The steps that have no dependency. *)
Definition root_steps (steps : list WorkflowStep.t) : list WorkflowStep.t :=
  filter (λ step, WorkflowStep.dependencies step = []) steps.

(** The number of dependencies of all the steps together. *)
Definition total_dependencies (steps : list WorkflowStep.t) : nat :=
  sum_list_with (λ step, length (WorkflowStep.dependencies step)) steps.

(** What the builder reads of a step. *)
Definition step_key (step : WorkflowStep.t) : string * string * list string :=
  (WorkflowStep.id step, WorkflowStep.agentName step,
   WorkflowStep.dependencies step).

(** What the renderers read of a node and of an edge. *)
Definition node_key (node : GraphNode.t) : string * string * NodeType * bool :=
  (GraphNode.id node, GraphNode.label node, GraphNode.type node,
   truthy (GraphNode.isBottleneck node)).

Definition edge_key (edge : GraphEdge.t) : string * string :=
  (GraphEdge.source edge, GraphEdge.target edge).

(** The workflow with another [stepAnalysis]. *)
Definition with_analysis (workflow : Workflow.t)
    (analysis : option (list StepAnalysis.t)) : Workflow.t :=
  Workflow.mk (Workflow.id workflow) (Workflow.steps workflow) analysis.

(** The analysis entries that name a step of the workflow. *)
Definition known_entries (workflow : Workflow.t) : list StepAnalysis.t :=
  filter (λ entry, StepAnalysis.stepId entry ∈ step_ids workflow)
         (analysisEntries workflow).

(** A diamond: [a] without dependency, [b] and [c] on [a], [d] on both. *)
Definition diamond_workflow : Workflow.t :=
  Workflow.mk "w"
    [ WorkflowStep.mk "a" "g1" "A" [] None None;
      WorkflowStep.mk "b" "g2" "B" ["a"] None None;
      WorkflowStep.mk "c" "g3" "C" ["a"] None None;
      WorkflowStep.mk "d" "g4" "D" ["b"; "c"] None None ]
    (Some [ StepAnalysis.mk "b" one two true;
            StepAnalysis.mk "zz" two two true ]).

(** ** Loops as list functions *)

Section Loops.
Context {A B : Type}.

(** A loop that only appends to its accumulator appends the
    concatenation of what each iteration appends. *)
Lemma fold_left_append (g : list B → A → list B) (f : A → list B) :
  (∀ acc x, g acc x = acc ++ f x) →
  ∀ l acc, fold_left g l acc = acc ++ flat_map f l.
Proof.
  intros Hg l. induction l as [|x l IH]; intros acc; simpl.
  - by rewrite app_nil_r.
  - by rewrite IH, Hg, <- app_assoc.
Qed.

Lemma fold_left_push (f : A → B) (l : list A) (acc : list B) :
  fold_left (λ acc x, push acc (f x)) l acc = acc ++ map f l.
Proof.
  rewrite (fold_left_append _ (λ x, [f x])) by done.
  f_equal; induction l as [|x l IH]; simpl; by f_equal.
Qed.
End Loops.

Lemma generateGraphData_nodes (workflow : Workflow.t) :
  GraphData.nodes (generateGraphData workflow) =
  startNode ::
    map (agentNode (stepAnalysisMap workflow)) (Workflow.steps workflow)
    ++ [endNode].
Proof.
  unfold generateGraphData; simpl.
  by rewrite fold_left_push.
Qed.

Lemma startEdges_loop (steps : list WorkflowStep.t) (acc : list GraphEdge.t) :
  fold_left
    (λ edges step,
       if Nat.eqb (length (WorkflowStep.dependencies step)) 0
       then push edges (startEdge step)
       else edges)
    steps acc
  = acc ++ flat_map startEdgesOf steps.
Proof.
  apply fold_left_append. intros edges step. unfold startEdgesOf, push.
  destruct (Nat.eqb _ _); by rewrite ?app_nil_r.
Qed.

Lemma depEdges_loop (steps : list WorkflowStep.t) (acc : list GraphEdge.t) :
  fold_left
    (λ edges step,
       fold_left (λ edges dep, push edges (depEdge step dep))
                 (WorkflowStep.dependencies step) edges)
    steps acc
  = acc ++ flat_map depEdgesOf steps.
Proof.
  apply fold_left_append. intros edges step. apply fold_left_push.
Qed.

Lemma endEdges_loop (dependent : gset string)
    (steps : list WorkflowStep.t) (acc : list GraphEdge.t) :
  fold_left
    (λ edges step,
       if decide (WorkflowStep.id step ∈ dependent)
       then edges
       else push edges (endEdge step))
    steps acc
  = acc ++ flat_map (endEdgesOf dependent) steps.
Proof.
  apply fold_left_append. intros edges step. unfold endEdgesOf, push.
  destruct (decide _); by rewrite ?app_nil_r.
Qed.

Lemma generateGraphData_edges (workflow : Workflow.t) :
  let steps := Workflow.steps workflow in
  GraphData.edges (generateGraphData workflow) =
  flat_map startEdgesOf steps
    ++ flat_map depEdgesOf steps
    ++ flat_map (endEdgesOf (dependentSteps steps)) steps.
Proof.
  unfold generateGraphData; simpl.
  rewrite endEdges_loop, depEdges_loop, startEdges_loop; simpl.
  by rewrite <- app_assoc.
Qed.

(** The set built by lines 83-88 holds the identifiers of the steps that
    have at least one dependency. *)
Lemma dependentSteps_inner (i x : string) (deps : list string) (acc : gset string) :
  x ∈ fold_left (λ acc' (_ : string), {[i]} ∪ acc') deps acc
  ↔ x ∈ acc ∨ (x = i ∧ deps ≠ []).
Proof.
  revert acc. induction deps as [|d deps IH]; intros acc; simpl.
  - naive_solver.
  - rewrite IH. set_solver.
Qed.

Lemma dependentSteps_loop (x : string) (steps : list WorkflowStep.t) (acc : gset string) :
  x ∈ fold_left
        (λ acc step,
           fold_left (λ acc' (_ : string), {[WorkflowStep.id step]} ∪ acc')
                     (WorkflowStep.dependencies step) acc)
        steps acc
  ↔ x ∈ acc ∨
    ∃ step, step ∈ steps ∧ WorkflowStep.id step = x
            ∧ WorkflowStep.dependencies step ≠ [].
Proof.
  revert acc. induction steps as [|s steps IH]; intros acc; simpl.
  - split; [auto | intros [?|(? & H & _)]; [done | by apply elem_of_nil in H]].
  - rewrite IH, dependentSteps_inner. split.
    + intros [[?|[-> ?]]|(t & ? & ? & ?)]; eauto.
      * right. exists s. split; [left | done].
      * right. exists t. split; [by right | done].
    + intros [?|(t & Ht & <- & ?)]; [auto |].
      apply elem_of_cons in Ht as [->|Ht]; [auto |].
      right. eauto.
Qed.

Lemma elem_of_dependentSteps (x : string) (steps : list WorkflowStep.t) :
  x ∈ dependentSteps steps
  ↔ ∃ step, step ∈ steps ∧ WorkflowStep.id step = x
            ∧ WorkflowStep.dependencies step ≠ [].
Proof.
  unfold dependentSteps. rewrite dependentSteps_loop. set_solver.
Qed.


(** ** Properties of the graph builder *)

(** The graph of the worked example, by evaluation. *)
Lemma example_workflow_graph :
  generateGraphData example_workflow =
  GraphData.mk
    [ startNode;
      GraphNode.mk "s1" "Fetcher" type_agent None None None;
      GraphNode.mk "s2" "Parser" type_agent None None None;
      endNode ]
    [ GraphEdge.mk "start" "s1" None;
      GraphEdge.mk "s1" "s2" None;
      GraphEdge.mk "s1" "end" None ].
Proof. vm_compute. reflexivity. Qed.

(** Claim C1. On the workflow of the worked example ([s1], agent Fetcher,
    no dependencies; [s2], agent Parser, depending on [s1]; no
    stepAnalysis) the builder returns the nodes start, s1, s2, end in that
    order, and the edges start→s1, s1→s2 and s1→end: the edge into [end]
    leaves [s1], the step that has no dependency, and not [s2], the step
    on which nothing depends. *)
Theorem C1_example_graph :
  generateGraphData example_workflow =
  GraphData.mk
    [ startNode;
      GraphNode.mk "s1" "Fetcher" type_agent None None None;
      GraphNode.mk "s2" "Parser" type_agent None None None;
      endNode ]
    [ GraphEdge.mk "start" "s1" None;
      GraphEdge.mk "s1" "s2" None;
      GraphEdge.mk "s1" "end" None ].
Proof. exact example_workflow_graph. Qed.

(** The end edges of any workflow: [x → end] is an edge of the third loop
    exactly when [x] identifies a step and no step identified by [x] has a
    dependency. *)
Lemma endEdge_iff (steps : list WorkflowStep.t) (x : string) :
  GraphEdge.mk x "end" None ∈ flat_map (endEdgesOf (dependentSteps steps)) steps
  ↔ ((∃ step, step ∈ steps ∧ WorkflowStep.id step = x) ∧
     (∀ step, step ∈ steps → WorkflowStep.id step = x →
              WorkflowStep.dependencies step = [])).
Proof.
  rewrite list_elem_of_In, in_flat_map. split.
  - intros (s & Hs & He). apply list_elem_of_In in Hs.
    unfold endEdgesOf in He. destruct (decide _) as [|Hn]; [by destruct He|].
    destruct He as [He|[]]. injection He as <-.
    split; [by exists s|]. intros t Ht Hid.
    destruct (WorkflowStep.dependencies t) eqn:Hd; [done|].
    exfalso. apply Hn, elem_of_dependentSteps. exists t. by rewrite Hd.
  - intros [(s & Hs & <-) Hall]. exists s. split; [by apply list_elem_of_In|].
    unfold endEdgesOf. destruct (decide _) as [Hin|]; [|by left].
    apply elem_of_dependentSteps in Hin as (t & Ht & Hid & Hd).
    by specialize (Hall t Ht Hid).
Qed.

(** Claim C2. On the workflow of the worked example, the identifier [s2]
    occurs in no dependency list and yet the builder returns no edge
    s2→end, while [s1], which occurs in the dependency list of [s2], has
    the edge s1→end: the set that decides the end edges is the set of the
    steps that have a dependency, not the set of the identifiers that are
    depended upon. *)
Theorem C2_end_edges_of_example :
  dependentSteps (Workflow.steps example_workflow) = {[ "s2" ]} ∧
  Forall (λ step, "s2" ∉ WorkflowStep.dependencies step)
         (Workflow.steps example_workflow) ∧
  (GraphEdge.mk "s2" "end" None
     ∉ GraphData.edges (generateGraphData example_workflow)) ∧
  (GraphEdge.mk "s1" "end" None
     ∈ GraphData.edges (generateGraphData example_workflow)).
Proof.
  split; [by vm_compute|].
  split; [repeat constructor; set_solver|].
  rewrite example_workflow_graph. simpl. set_solver.
Qed.

(** The identifiers of the nodes: [start], the steps in input order, [end]. *)
Lemma generateGraphData_node_ids (workflow : Workflow.t) :
  node_ids (generateGraphData workflow) =
  "start" :: map WorkflowStep.id (Workflow.steps workflow) ++ ["end"].
Proof.
  unfold node_ids. rewrite generateGraphData_nodes. simpl. f_equal.
  rewrite map_app, map_map. done.
Qed.

Lemma elem_of_flat_map {A B : Type} (f : A → list B) (l : list A) (y : B) :
  y ∈ flat_map f l ↔ ∃ x, x ∈ l ∧ y ∈ f x.
Proof.
  rewrite list_elem_of_In, in_flat_map.
  split; intros (x & Hx & Hy); exists x;
    by rewrite ?list_elem_of_In in *.
Qed.

(** Every edge comes from one of the three loops, at some step. *)
Lemma elem_of_edges (workflow : Workflow.t) (edge : GraphEdge.t) :
  let steps := Workflow.steps workflow in
  edge ∈ GraphData.edges (generateGraphData workflow) ↔
  ∃ step, step ∈ steps ∧
    (edge ∈ startEdgesOf step ∨ edge ∈ depEdgesOf step ∨
     edge ∈ endEdgesOf (dependentSteps steps) step).
Proof.
  cbv zeta. rewrite generateGraphData_edges. cbv zeta.
  rewrite !elem_of_app, !elem_of_flat_map. naive_solver.
Qed.

Lemma elem_of_startEdgesOf (step : WorkflowStep.t) (edge : GraphEdge.t) :
  edge ∈ startEdgesOf step ↔
  WorkflowStep.dependencies step = [] ∧ edge = startEdge step.
Proof.
  unfold startEdgesOf. destruct (WorkflowStep.dependencies step); simpl.
  - rewrite list_elem_of_singleton. naive_solver.
  - split; [by intros ?%elem_of_nil | by intros [? _]].
Qed.

Lemma elem_of_depEdgesOf (step : WorkflowStep.t) (edge : GraphEdge.t) :
  edge ∈ depEdgesOf step ↔
  ∃ dep, dep ∈ WorkflowStep.dependencies step ∧ edge = depEdge step dep.
Proof.
  unfold depEdgesOf. rewrite list_elem_of_fmap. naive_solver.
Qed.

Lemma elem_of_endEdgesOf (dependent : gset string)
    (step : WorkflowStep.t) (edge : GraphEdge.t) :
  edge ∈ endEdgesOf dependent step ↔
  (WorkflowStep.id step ∉ dependent) ∧ edge = endEdge step.
Proof.
  unfold endEdgesOf. destruct (decide _).
  - split; [by intros ?%elem_of_nil | by intros [? _]].
  - rewrite list_elem_of_singleton. naive_solver.
Qed.







(** Claim C4. For every workflow with [N] steps the node list has
    [N + 2] elements: the start node, then the agent node of each step in
    input order, then the end node; its first node is the start node and
    its last node is the end node. *)
Theorem C4_nodes_in_order (workflow : Workflow.t) :
  let steps := Workflow.steps workflow in
  let nodes := GraphData.nodes (generateGraphData workflow) in
  nodes = startNode :: map (agentNode (stepAnalysisMap workflow)) steps
                    ++ [endNode] ∧
  length nodes = length steps + 2 ∧
  head nodes = Some startNode ∧
  last nodes = Some endNode ∧
  map GraphNode.id nodes = "start" :: map WorkflowStep.id steps ++ ["end"] ∧
  map GraphNode.label nodes
    = "Start" :: map WorkflowStep.agentName steps ++ ["End"] ∧
  map GraphNode.type nodes
    = type_start :: replicate (length steps) type_agent ++ [type_end].
Proof.
  cbv zeta. rewrite generateGraphData_nodes.
  repeat split.
  - simpl. rewrite length_app, length_map. simpl. lia.
  - by rewrite app_comm_cons, last_snoc.
  - simpl. by rewrite map_app, map_map.
  - simpl. by rewrite map_app, map_map.
  - simpl. rewrite map_app, map_map. simpl. do 2 f_equal.
    induction (Workflow.steps workflow); simpl; by f_equal.
Qed.

(** *** Counting edges *)

Lemma count_edges_app (src tgt : string) (l1 l2 : list GraphEdge.t) :
  count_edges src tgt (l1 ++ l2) = count_edges src tgt l1 + count_edges src tgt l2.
Proof. unfold count_edges. by rewrite filter_app, length_app. Qed.

Lemma count_edges_other_target (src tgt : string) (l : list GraphEdge.t) :
  (∀ edge, edge ∈ l → GraphEdge.target edge ≠ tgt) →
  count_edges src tgt l = 0.
Proof.
  unfold count_edges. induction l as [|e l IH]; intros H; [done|].
  rewrite filter_cons_False.
  - apply IH. intros e' ?. apply H. by right.
  - intros [_ ?]. by apply (H e); [left|].
Qed.

Lemma count_edges_flat_map_0 {A : Type} (f : A → list GraphEdge.t)
    (src tgt : string) (l : list A) :
  (∀ x, x ∈ l → count_edges src tgt (f x) = 0) →
  count_edges src tgt (flat_map f l) = 0.
Proof.
  induction l as [|x l IH]; intros H; simpl; [done|].
  rewrite count_edges_app, H, IH; [done| |by left].
  intros y ?. apply H. by right.
Qed.

(** Among steps with distinct identifiers, a loop whose edges for the
    other steps do not count yields the count of the step itself. *)
Lemma count_edges_flat_map_unique (f : WorkflowStep.t → list GraphEdge.t)
    (src tgt : string) (steps : list WorkflowStep.t) (step : WorkflowStep.t) :
  NoDup (map WorkflowStep.id steps) →
  step ∈ steps →
  (∀ other, WorkflowStep.id other ≠ WorkflowStep.id step →
            count_edges src tgt (f other) = 0) →
  count_edges src tgt (flat_map f steps) = count_edges src tgt (f step).
Proof.
  intros Hnd Hin Hother.
  induction steps as [|t steps IH]; [by apply elem_of_nil in Hin|].
  simpl in Hnd. apply NoDup_cons in Hnd as [Hfresh Hnd].
  simpl. rewrite count_edges_app.
  apply elem_of_cons in Hin as [->|Hin].
  - rewrite count_edges_flat_map_0; [lia|].
    intros u Hu. apply Hother. intros Heq. apply Hfresh. rewrite <- Heq.
    by apply list_elem_of_fmap_2.
  - rewrite Hother, IH; [done..|].
    intros Heq. apply Hfresh. rewrite Heq. by apply list_elem_of_fmap_2.
Qed.

Lemma twin_workflow_graph :
  GraphData.edges (generateGraphData twin_workflow) =
  [ GraphEdge.mk "start" "a" None; GraphEdge.mk "start" "a" None;
    GraphEdge.mk "a" "end" None; GraphEdge.mk "a" "end" None ].
Proof. vm_compute. reflexivity. Qed.

(** Claim C5, as stated, fails: when two steps without dependency share
    the identifier [a], the graph has two edges start→a. *)
Lemma C5_counterexample : ¬ roots_have_one_start_edge twin_workflow.
Proof.
  intros H.
  specialize (H (WorkflowStep.mk "a" "a1" "First" [] None None)).
  rewrite twin_workflow_graph in H.
  assert (2 = 1) as ?; [|done].
  apply H; [by left | done].
Qed.

(** Distinct identifiers are not enough when a step is called [end] and
    another [start]: the end edge of the second is another edge
    start→end. *)
Example sentinel_named_workflow_edges :
  GraphData.edges (generateGraphData sentinel_named_workflow) =
  [ GraphEdge.mk "start" "end" None; GraphEdge.mk "start" "start" None;
    GraphEdge.mk "end" "end" None; GraphEdge.mk "start" "end" None ].
Proof. vm_compute. reflexivity. Qed.

(** Claim C5, amended. For every workflow whose steps have pairwise
    distinct identifiers, and every step of it that has an empty
    dependency list and is not called [end], the edge list returned by
    [generateGraphData] contains exactly one edge with source [start] and
    target the identifier of that step. *)
Theorem C5_one_start_edge (workflow : Workflow.t) (step : WorkflowStep.t) :
  NoDup (map WorkflowStep.id (Workflow.steps workflow)) →
  step ∈ Workflow.steps workflow →
  WorkflowStep.dependencies step = [] →
  WorkflowStep.id step ≠ "end" →
  count_edges "start" (WorkflowStep.id step)
              (GraphData.edges (generateGraphData workflow)) = 1.
Proof.
  intros Hnd Hin Hdeps Hend.
  rewrite generateGraphData_edges, !count_edges_app.
  rewrite (count_edges_flat_map_unique startEdgesOf _ _ _ step),
          (count_edges_flat_map_unique depEdgesOf _ _ _ step); try done.
  - rewrite count_edges_flat_map_0.
    + unfold startEdgesOf, depEdgesOf. rewrite Hdeps. simpl.
      unfold count_edges. by rewrite filter_cons_True.
    + intros t _. apply count_edges_other_target.
      intros e [_ ->]%elem_of_endEdgesOf. simpl. congruence.
  - intros t Hne. apply count_edges_other_target.
    intros e (d & _ & ->)%elem_of_depEdgesOf. done.
  - intros t Hne. apply count_edges_other_target.
    intros e [_ ->]%elem_of_startEdgesOf. done.
Qed.

Lemma C5_one_start_edge_witness :
  count_edges "start" "s1"
              (GraphData.edges (generateGraphData example_workflow)) = 1.
Proof.
  apply (C5_one_start_edge example_workflow example_s1).
  - simpl. apply NoDup_cons. split; [set_solver|]. apply NoDup_singleton.
  - by left.
  - reflexivity.
  - discriminate.
Defined.

(** *** The analysis map *)

(** A key that the array does not hold keeps the value it had. *)
Lemma set_entries_lookup_other (k : string) (l : list StepAnalysis.t)
    (m : gmap string StepAnalysis.t) :
  (∀ entry, entry ∈ l → StepAnalysis.stepId entry ≠ k) →
  fold_left (λ m s, <[StepAnalysis.stepId s := s]> m) l m !! k = m !! k.
Proof.
  revert m. induction l as [|b l IH]; intros m H; simpl; [done|].
  rewrite IH.
  - apply lookup_insert_ne, H. by left.
  - intros e ?. apply H. by right.
Qed.

(** The map holds, for a key, the last entry of the array with that key. *)
Lemma set_entries_lookup_last (l1 l2 : list StepAnalysis.t)
    (entry : StepAnalysis.t) (m : gmap string StepAnalysis.t) :
  (∀ later, later ∈ l2 →
     StepAnalysis.stepId later ≠ StepAnalysis.stepId entry) →
  fold_left (λ m s, <[StepAnalysis.stepId s := s]> m) (l1 ++ entry :: l2) m
    !! StepAnalysis.stepId entry = Some entry.
Proof.
  intros H. rewrite fold_left_app. simpl.
  rewrite set_entries_lookup_other by done. apply lookup_insert_eq.
Qed.

(** With distinct keys, nothing follows an entry that has its key. *)
Lemma NoDup_stepId_split (l : list StepAnalysis.t) (entry : StepAnalysis.t) :
  NoDup (map StepAnalysis.stepId l) →
  entry ∈ l →
  ∃ l1 l2, l = l1 ++ entry :: l2 ∧
    ∀ later, later ∈ l2 →
      StepAnalysis.stepId later ≠ StepAnalysis.stepId entry.
Proof.
  intros Hnd (l1 & l2 & ->)%list_elem_of_split. exists l1, l2.
  split; [done|]. intros later Hl Heq.
  rewrite map_app in Hnd. simpl in Hnd.
  apply NoDup_app in Hnd as (_ & _ & Hnd).
  apply NoDup_cons in Hnd as [Hfresh _]. apply Hfresh.
  rewrite <- Heq. by apply list_elem_of_fmap_2.
Qed.

Lemma agentNode_at (workflow : Workflow.t) (i : nat) (step : WorkflowStep.t) :
  Workflow.steps workflow !! i = Some step →
  GraphData.nodes (generateGraphData workflow) !! S i
  = Some (agentNode (stepAnalysisMap workflow) step).
Proof.
  intros H. rewrite generateGraphData_nodes. simpl.
  rewrite lookup_app_l.
  - by rewrite list_lookup_fmap, H.
  - rewrite length_map. by apply lookup_lt_Some in H.
Qed.

Lemma twice_analysed_workflow_graph :
  GraphData.nodes (generateGraphData twice_analysed_workflow) =
  [ startNode;
    GraphNode.mk "s1" "Fetcher" type_agent (Some two) (Some two) (Some true);
    endNode ].
Proof. vm_compute. reflexivity. Qed.

(** Claim C6, as stated, fails: with two entries for [s1], the node of
    [s1] carries the values of the second and not those of the first. *)
Lemma C6_counterexample : ¬ nodes_carry_every_entry twice_analysed_workflow.
Proof.
  intros H. destruct (H 0 example_s1 eq_refl) as (node & Hnode & Hall & _).
  rewrite twice_analysed_workflow_graph in Hnode. simpl in Hnode.
  injection Hnode as <-.
  destruct (Hall first_entry) as (Hlat & _); [by left | done |].
  discriminate Hlat.
Qed.

(** Claim C6, amended. For every workflow and every step [s] of it, the
    agent node produced for [s] (the node after the start node and the
    nodes of the steps before [s]) has the identifier of [s] and carries
    the latency, cost and bottleneck flag of the last entry of
    [stepAnalysis] whose [stepId] is the identifier of [s]; when the
    entries have pairwise distinct [stepId]s this is the one entry for
    [s]. When no entry has the identifier of [s], or [stepAnalysis] is
    missing, the three fields are absent on the node. *)
Theorem C6_analysis_fields (workflow : Workflow.t) (i : nat) (step : WorkflowStep.t) :
  Workflow.steps workflow !! i = Some step →
  ∃ node,
    GraphData.nodes (generateGraphData workflow) !! S i = Some node ∧
    GraphNode.id node = WorkflowStep.id step ∧
    GraphNode.type node = type_agent ∧
    (∀ l1 entry l2,
       analysisEntries workflow = l1 ++ entry :: l2 →
       StepAnalysis.stepId entry = WorkflowStep.id step →
       (∀ later, later ∈ l2 →
          StepAnalysis.stepId later ≠ WorkflowStep.id step) →
       carries node entry) ∧
    (NoDup (map StepAnalysis.stepId (analysisEntries workflow)) →
     ∀ entry, entry ∈ analysisEntries workflow →
       StepAnalysis.stepId entry = WorkflowStep.id step →
       carries node entry) ∧
    ((∀ entry, entry ∈ analysisEntries workflow →
        StepAnalysis.stepId entry ≠ WorkflowStep.id step) →
     carries_nothing node).
Proof.
  intros Hstep. eexists. split; [by apply agentNode_at|].
  split; [done|]. split; [done|].
  assert (∀ l1 entry l2,
            analysisEntries workflow = l1 ++ entry :: l2 →
            StepAnalysis.stepId entry = WorkflowStep.id step →
            (∀ later, later ∈ l2 →
               StepAnalysis.stepId later ≠ WorkflowStep.id step) →
            carries (agentNode (stepAnalysisMap workflow) step) entry)
    as Hlast.
  { intros l1 entry l2 Hsplit Hid Hlater.
    unfold carries, agentNode, stepAnalysisMap. simpl.
    rewrite Hsplit, <- Hid, set_entries_lookup_last; [done|].
    intros later ?. rewrite Hid. by apply Hlater. }
  split; [done|]. split.
  - intros Hnd entry Hin Hid.
    destruct (NoDup_stepId_split _ _ Hnd Hin) as (l1 & l2 & Hsplit & Hlater).
    apply (Hlast l1 entry l2); [done..|].
    intros later ?. rewrite <- Hid. by apply Hlater.
  - intros Hnone. unfold carries_nothing, agentNode, stepAnalysisMap. simpl.
    by rewrite set_entries_lookup_other, lookup_empty.
Qed.

Lemma C6_analysis_fields_witness :
  ∃ node,
    GraphData.nodes (generateGraphData twice_analysed_workflow) !! 1
      = Some node ∧
    carries node second_entry.
Proof.
  destruct (C6_analysis_fields twice_analysed_workflow 0 example_s1 eq_refl)
    as (node & Hnode & _ & _ & Hlast & _).
  exists node. split; [exact Hnode|].
  apply (Hlast [first_entry] second_entry []).
  - reflexivity.
  - reflexivity.
  - intros later Hl. by apply elem_of_nil in Hl.
Defined.

(** ** Strings *)

#[local] Arguments String.append !_ _ / : simpl nomatch.

Lemma append_assoc (a b c : string) : (a +:+ b) +:+ c = a +:+ b +:+ c.
Proof. induction a as [|x a IH]; simpl; by f_equal. Qed.

Lemma append_nil_r (a : string) : a +:+ EmptyString = a.
Proof. induction a as [|x a IH]; simpl; by f_equal. Qed.

Lemma join_app (l1 l2 : list string) : join (l1 ++ l2) = join l1 +:+ join l2.
Proof.
  induction l1 as [|x l1 IH]; simpl; [done|]. by rewrite IH, append_assoc.
Qed.

(** A loop that only appends to a string appends the pieces in order. *)
Lemma fold_left_append_string {A : Type} (g : string → A → string)
    (f : A → string) :
  (∀ acc x, g acc x = acc +:+ f x) →
  ∀ l acc, fold_left g l acc = acc +:+ join (map f l).
Proof.
  intros Hg l. induction l as [|x l IH]; intros acc; simpl.
  - by rewrite append_nil_r.
  - by rewrite IH, Hg, append_assoc.
Qed.

Lemma starts_with_app (pat rest : string) : starts_with pat (pat +:+ rest) = true.
Proof.
  induction pat as [|c pat IH]; simpl; [done|].
  by rewrite Ascii.eqb_refl, IH.
Qed.

Lemma ends_with_app (suffix front : string) :
  ends_with suffix (front +:+ suffix) = true.
Proof.
  induction front as [|c front IH]; simpl.
  - destruct suffix as [|a suffix]; [done|].
    cbn [ends_with]. by rewrite String.eqb_refl.
  - rewrite IH. apply orb_true_r.
Qed.

Lemma includes_starts_with (pat s : string) :
  starts_with pat s = true → includes pat s = true.
Proof. intros H. destruct s; simpl in *; by rewrite H. Qed.

Lemma includes_app_r (pat front s : string) :
  includes pat s = true → includes pat (front +:+ s) = true.
Proof.
  intros H. induction front as [|c front IH]; simpl; [done|].
  rewrite IH. apply orb_true_r.
Qed.

Lemma starts_with_app_l (pat s back : string) :
  starts_with pat s = true → starts_with pat (s +:+ back) = true.
Proof.
  revert s. induction pat as [|c pat IH]; intros s H; simpl; [done|].
  destruct s as [|d s]; simpl in *; [done|].
  apply andb_true_iff in H as [-> H]. by rewrite IH.
Qed.

Lemma includes_app_l (pat s back : string) :
  includes pat s = true → includes pat (s +:+ back) = true.
Proof.
  induction s as [|c s IH]; simpl.
  - rewrite orb_false_r. intros H. apply includes_starts_with.
    by apply (starts_with_app_l pat EmptyString).
  - intros [H|H]%orb_true_iff; apply orb_true_iff.
    + left. exact (starts_with_app_l pat (String c s) back H).
    + right. by apply IH.
Qed.

Lemma includes_join (pat : string) (pieces : list string) (piece : string) :
  piece ∈ pieces → includes pat piece = true → includes pat (join pieces) = true.
Proof.
  intros (l1 & l2 & ->)%list_elem_of_split H.
  rewrite join_app. simpl.
  by apply includes_app_r, includes_app_l.
Qed.

Lemma starts_with_cons (a b : ascii) (pat s : string) :
  starts_with (String a pat) (String b s) = Ascii.eqb a b && starts_with pat s.
Proof. reflexivity. Qed.

Lemma occurrences_cons (pat : string) (c : ascii) (s : string) :
  occurrences pat (String c s)
  = (if starts_with pat (String c s) then 1 else 0) + occurrences pat s.
Proof. reflexivity. Qed.

(** Whether an arrow starts at the first character of [String c (a +:+ b)]
    is decided within [String c a], unless [a] is empty and [b] starts
    with [>]. *)
Lemma starts_with_arrow_app (c : ascii) (a b : string) :
  Ascii.eqb "-" c && starts_with ">" b = false ∨ a ≠ EmptyString →
  starts_with "->" (String c (a +:+ b)) = starts_with "->" (String c a).
Proof.
  intros H. rewrite !starts_with_cons. destruct a as [|d a].
  - change (EmptyString +:+ b) with b.
    destruct H as [H|H]; [|done].
    change (starts_with ">" EmptyString) with false.
    by rewrite H, andb_false_r.
  - change (String d a +:+ b) with (String d (a +:+ b)).
    by rewrite !starts_with_cons.
Qed.

(** An arrow cannot straddle a cut that is not followed by [>]. *)
Lemma occurrences_arrow_app (a b : string) :
  starts_with ">" b = false →
  occurrences "->" (a +:+ b) = occurrences "->" a + occurrences "->" b.
Proof.
  intros Hb. induction a as [|c a IH]; [done|].
  change (String c a +:+ b) with (String c (a +:+ b)).
  rewrite !occurrences_cons, IH, starts_with_arrow_app; [lia|].
  left. by rewrite Hb, andb_false_r.
Qed.

(** Nor a cut that does not follow [-]. *)
Lemma occurrences_arrow_app_l (a b : string) :
  ends_with "-" a = false →
  occurrences "->" (a +:+ b) = occurrences "->" a + occurrences "->" b.
Proof.
  induction a as [|c a IH]; intros Ha; [done|].
  change (String c a +:+ b) with (String c (a +:+ b)).
  cbn [ends_with] in Ha. apply orb_false_iff in Ha as [Hc Ha].
  rewrite !occurrences_cons, IH, starts_with_arrow_app; [lia| |done].
  destruct a as [|d a]; [left|by right].
  cbn [String.eqb] in Hc. rewrite Ascii.eqb_sym.
  destruct (Ascii.eqb c "-"); [done|]. done.
Qed.

(** The arrows of lines followed by [rest], when no line and no [rest]
    starts with [>]. *)
Lemma occurrences_arrow_lines {A : Type} (f : A → string) (l : list A)
    (rest : string) :
  (∀ x s, starts_with ">" (f x +:+ s) = false) →
  starts_with ">" rest = false →
  occurrences "->" (join (map f l) +:+ rest)
    = sum_list_with (λ x, occurrences "->" (f x)) l + occurrences "->" rest
  ∧ starts_with ">" (join (map f l) +:+ rest) = false.
Proof.
  intros Hf Hrest. induction l as [|x l [IH1 IH2]]; [done|].
  cbn [map join sum_list_with]. rewrite append_assoc. split; [|apply Hf].
  rewrite occurrences_arrow_app, IH1 by done. lia.
Qed.

(** ** Properties of the DOT renderer *)

Ltac split_arrows :=
  repeat first
    [ rewrite occurrences_arrow_app_l by reflexivity
    | rewrite occurrences_arrow_app by reflexivity ].

Lemma occurrences_dotNode (node : GraphNode.t) :
  occurrences "->" (dotNode node)
  = occurrences "->" (GraphNode.id node)
    + occurrences "->" (GraphNode.label node).
Proof.
  unfold dotNode, dotAttrs, quoted.
  destruct (decide _); [|destruct (decide _); [|destruct (truthy _)]];
    split_arrows; simpl; lia.
Qed.

Lemma occurrences_dotEdge (edge : GraphEdge.t) :
  occurrences "->" (dotEdge edge)
  = 1 + occurrences "->" (GraphEdge.source edge)
      + occurrences "->" (GraphEdge.target edge).
Proof. unfold dotEdge, quoted. split_arrows. simpl. lia. Qed.

Lemma sum_occurrences_dotNode (nodes : list GraphNode.t) :
  sum_list_with (λ node, occurrences "->" (dotNode node)) nodes
  = sum_list_with
      (λ node, occurrences "->" (GraphNode.id node)
               + occurrences "->" (GraphNode.label node))
      nodes.
Proof.
  induction nodes as [|n l IH]; [done|].
  cbn [sum_list_with]. by rewrite IH, occurrences_dotNode.
Qed.

Lemma sum_occurrences_dotEdge (edges : list GraphEdge.t) :
  sum_list_with (λ edge, occurrences "->" (dotEdge edge)) edges
  = length edges
    + sum_list_with
        (λ edge, occurrences "->" (GraphEdge.source edge)
                 + occurrences "->" (GraphEdge.target edge))
        edges.
Proof.
  induction edges as [|e l IH]; [done|].
  cbn [sum_list_with length]. rewrite IH, occurrences_dotEdge. lia.
Qed.

Lemma generateDot_lines (data : GraphData.t) :
  generateDot data
  = dotHeader +:+ join (map dotNode (GraphData.nodes data))
      +:+ join (map dotEdge (GraphData.edges data)) +:+ "}" +:+ nl.
Proof.
  unfold generateDot, dotHeader.
  rewrite (fold_left_append_string _ dotEdge) by done.
  rewrite (fold_left_append_string _ dotNode) by done.
  by rewrite !append_assoc.
Qed.

(** The arrows of a DOT document: one for each edge, and those that the
    identifiers and labels bring. *)
Lemma occurrences_generateDot (data : GraphData.t) :
  occurrences "->" (generateDot data)
  = length (GraphData.edges data)
    + sum_list_with
        (λ node, occurrences "->" (GraphNode.id node)
                 + occurrences "->" (GraphNode.label node))
        (GraphData.nodes data)
    + sum_list_with
        (λ edge, occurrences "->" (GraphEdge.source edge)
                 + occurrences "->" (GraphEdge.target edge))
        (GraphData.edges data).
Proof.
  rewrite generateDot_lines.
  rewrite occurrences_arrow_app_l by reflexivity.
  destruct (occurrences_arrow_lines dotEdge (GraphData.edges data)
              ("}" +:+ nl)) as [HE HEgt]; [done..|].
  destruct (occurrences_arrow_lines dotNode (GraphData.nodes data)
              (join (map dotEdge (GraphData.edges data)) +:+ "}" +:+ nl))
    as [HN _]; [done..|].
  rewrite HN, HE.
  change (occurrences "->" dotHeader) with 0.
  change (occurrences "->" ("}" +:+ nl)) with 0.
  rewrite sum_occurrences_dotEdge, sum_occurrences_dotNode.
  lia.
Qed.

Lemma sum_list_with_0 {A : Type} (f : A → nat) (l : list A) :
  (∀ x, x ∈ l → f x = 0) → sum_list_with f l = 0.
Proof.
  induction l as [|x l IH]; intros H; [done|].
  cbn [sum_list_with]. rewrite H, IH; [done| |by left].
  intros y ?. apply H. by right.
Qed.

Lemma arrow_free_step (workflow : Workflow.t) (step : WorkflowStep.t) :
  arrow_free workflow →
  step ∈ Workflow.steps workflow →
  occurrences "->" (WorkflowStep.id step) = 0 ∧
  occurrences "->" (WorkflowStep.agentName step) = 0 ∧
  ∀ dep, dep ∈ WorkflowStep.dependencies step → occurrences "->" dep = 0.
Proof.
  unfold arrow_free. rewrite Forall_forall. intros H Hin.
  destruct (H step Hin) as (? & ? & Hdeps).
  by rewrite Forall_forall in Hdeps.
Qed.

Lemma arrow_named_workflow_dot :
  occurrences "->" (generateDot (generateGraphData arrow_named_workflow)) = 3 ∧
  length (GraphData.edges (generateGraphData arrow_named_workflow)) = 2.
Proof. split; vm_compute; reflexivity. Qed.

(** Claim C9, as stated, fails: the graph of a workflow whose agent is
    named [A->B] has two edges, and its DOT document three arrows. *)
Lemma C9_counterexample : ¬ dot_smoke_test arrow_named_workflow.
Proof.
  intros (_ & _ & H). cbv zeta in H.
  destruct arrow_named_workflow_dot as [Hocc Hlen].
  rewrite Hocc, Hlen in H. discriminate H.
Qed.

(** Claim C9, amended. For every workflow [W], the string
    [generateDot(generateGraphData(W))] starts with [digraph workflow {]
    and ends with [}] followed by a newline; and when no step identifier,
    agent name or dependency identifier of [W] contains [->], it contains
    exactly as many occurrences of [->] as [generateGraphData(W)] has
    edges. *)
Theorem C9_dot_smoke_test (workflow : Workflow.t) :
  let data := generateGraphData workflow in
  starts_with "digraph workflow {" (generateDot data) = true ∧
  ends_with ("}" +:+ nl) (generateDot data) = true ∧
  (arrow_free workflow →
   occurrences "->" (generateDot data) = length (GraphData.edges data)).
Proof.
  cbv zeta. split; [|split].
  - rewrite generateDot_lines. by apply starts_with_app_l.
  - rewrite generateDot_lines.
    set (tail := "}" +:+ nl). rewrite <- !append_assoc. apply ends_with_app.
  - intros Hfree. rewrite occurrences_generateDot.
    rewrite !sum_list_with_0; [lia| |].
    + intros e (s & Hs & H)%elem_of_edges.
      destruct (arrow_free_step _ _ Hfree Hs) as (Hid & _ & Hdeps).
      destruct H as [[_ ->]%elem_of_startEdgesOf
                    |[(d & Hd & ->)%elem_of_depEdgesOf
                     |[_ ->]%elem_of_endEdgesOf]]; simpl.
      * by rewrite Hid.
      * by rewrite Hid, (Hdeps d Hd).
      * by rewrite Hid.
    + intros n. rewrite generateGraphData_nodes.
      intros [->|[(s & -> & Hs)%list_elem_of_fmap| ->%list_elem_of_singleton
                 ]%elem_of_app]%elem_of_cons; [done| |done].
      destruct (arrow_free_step _ _ Hfree Hs) as (Hid & Hname & _).
      simpl. by rewrite Hid, Hname.
Qed.

Lemma C9_dot_smoke_test_witness : dot_smoke_test example_workflow.
Proof.
  destruct (C9_dot_smoke_test example_workflow) as (Hstart & Hend & Hcount).
  split; [exact Hstart | split; [exact Hend |]].
  apply Hcount. repeat constructor.
Defined.

(** ** Properties of the SVG renderer *)

(** The map of the nodes has a node for exactly the identifiers of the
    nodes. *)
Lemma nodeById_loop (k : string) (nodes : list GraphNode.t)
    (m : gmap string GraphNode.t) :
  fold_left (λ m d, <[GraphNode.id d := d]> m) nodes m !! k = None
  ↔ (k ∉ map GraphNode.id nodes) ∧ m !! k = None.
Proof.
  revert m. induction nodes as [|d nodes IH]; intros m; simpl.
  - split; [intros ?; split; [apply not_elem_of_nil|done] | by intros [_ ?]].
  - rewrite IH, lookup_insert_None, not_elem_of_cons. naive_solver.
Qed.

Lemma nodeById_None (k : string) (nodes : list GraphNode.t) :
  nodeById nodes !! k = None ↔ k ∉ map GraphNode.id nodes.
Proof.
  unfold nodeById. rewrite nodeById_loop, lookup_empty. naive_solver.
Qed.

Lemma find_known (nodes : list GraphNode.t) (k : string) :
  k ∈ map GraphNode.id nodes →
  ∃ node, find (nodeById nodes) k = inr node.
Proof.
  intros Hin. unfold find.
  destruct (nodeById nodes !! k) as [node|] eqn:Hk; [by exists node|].
  by apply nodeById_None in Hk.
Qed.

Lemma find_unknown (nodes : list GraphNode.t) (k : string) :
  k ∉ map GraphNode.id nodes →
  find (nodeById nodes) k = inl (Error ("node not found: " +:+ k)).
Proof.
  intros Hout. unfold find. by rewrite (proj2 (nodeById_None k nodes) Hout).
Qed.

(** The links are initialised unless an endpoint names no node; the
    error is for the first such endpoint. *)
Lemma initializeLinks_outcome (nodes : list GraphNode.t)
    (edges : list GraphEdge.t) :
  match first_missing (map GraphNode.id nodes) edges with
  | Some x =>
      initializeLinks (nodeById nodes) edges
      = inl (Error ("node not found: " +:+ x))
  | None =>
      ∃ links, initializeLinks (nodeById nodes) edges = inr links ∧
               length links = length edges
  end.
Proof.
  induction edges as [|e edges IH]; simpl; [by exists []|].
  destruct (decide (GraphEdge.source e ∈ _)) as [Hs|Hs];
    [|by rewrite find_unknown].
  destruct (find_known _ _ Hs) as (ns & ->).
  destruct (decide (GraphEdge.target e ∈ _)) as [Ht|Ht];
    [|by rewrite find_unknown].
  destruct (find_known _ _ Ht) as (nt & ->).
  destruct (first_missing _ edges) as [x|].
  - by rewrite IH.
  - destruct IH as (links & -> & Hlen). eexists. split; [done|].
    simpl. by rewrite Hlen.
Qed.

Lemma map_svgLine (links : list SimulationLink.t) :
  map svgLine links = replicate (length links) objectLine.
Proof. induction links as [|l links IH]; simpl; by f_equal. Qed.

(** How [generateSVG] completes: without a document [d3.select] throws;
    with an edge that names no node the simulation throws; otherwise the
    document is returned. *)
Lemma generateSVG_outcome (Number_toString : number → string)
    (document_defined : bool) (data : GraphData.t)
    (width height : option number) :
  generateSVG Number_toString document_defined data width height
  = if document_defined
    then match first_missing (node_ids data) (GraphData.edges data) with
         | Some x => Throws (Error ("node not found: " +:+ x))
         | None => Returns (svgDocument Number_toString data width height)
         end
    else Throws (ReferenceError "document is not defined").
Proof.
  unfold generateSVG, node_ids. destruct document_defined; [|done].
  cbn [negb].
  pose proof (initializeLinks_outcome (GraphData.nodes data)
                (GraphData.edges data)) as H.
  destruct (first_missing _ _) as [x|].
  - by rewrite H.
  - destruct H as (links & -> & Hlen). f_equal. unfold svgDocument.
    rewrite (fold_left_append_string
               _ (λ node, svgCircle node +:+ svgText node)).
    + rewrite (fold_left_append_string _ svgLine) by done.
      by rewrite map_svgLine, Hlen, !append_assoc.
    + intros acc node. by rewrite append_assoc.
Qed.

(** No endpoint is missing exactly when no edge dangles. *)
Lemma first_missing_None (data : GraphData.t) :
  first_missing (node_ids data) (GraphData.edges data) = None
  ↔ no_dangling_edges data.
Proof.
  unfold no_dangling_edges.
  induction (GraphData.edges data) as [|e edges IH]; simpl.
  - split; [intros _ edge ?%elem_of_nil; done | done].
  - destruct (decide (GraphEdge.source e ∈ _)) as [Hs|Hs].
    + destruct (decide (GraphEdge.target e ∈ _)) as [Ht|Ht].
      * rewrite IH. split.
        -- intros H edge [->|?]%elem_of_cons; [done|by apply H].
        -- intros H edge ?. apply H. by right.
      * split; [done|]. intros H. destruct Ht. apply (H e). by left.
    + split; [done|]. intros H. destruct Hs. apply (H e). by left.
Qed.

Lemma generateSVG_returns (Number_toString : number → string)
    (document_defined : bool) (data : GraphData.t)
    (width height : option number) (out : string) :
  generateSVG Number_toString document_defined data width height = Returns out
  ↔ (document_defined = true ∧ no_dangling_edges data ∧
     out = svgDocument Number_toString data width height).
Proof.
  rewrite generateSVG_outcome, <- first_missing_None.
  destruct document_defined; [|naive_solver].
  destruct (first_missing _ _); naive_solver.
Qed.

(** Every node has its text element in the document. *)
Lemma svgDocument_text (Number_toString : number → string)
    (data : GraphData.t) (width height : option number) (node : GraphNode.t) :
  node ∈ GraphData.nodes data →
  includes (svgTextOpen +:+ GraphNode.label node +:+ "</text>")
           (svgDocument Number_toString data width height) = true.
Proof.
  intros Hin. unfold svgDocument.
  do 3 apply includes_app_r. apply includes_app_l.
  apply (includes_join _ _ (svgCircle node +:+ svgText node)).
  - by apply (list_elem_of_fmap_2 (λ node, svgCircle node +:+ svgText node)).
  - apply includes_app_r, includes_starts_with.
    unfold svgText, svgLabelText.
    rewrite <- (append_nil_r (svgTextOpen +:+ _ +:+ "</text>")) at 2.
    apply starts_with_app.
Qed.

(** The class of a flagged node is [node-bottleneck], whatever its type. *)
Lemma svgClassName_flagged (node : GraphNode.t) :
  GraphNode.isBottleneck node = Some true →
  svgClassName node = "node-bottleneck".
Proof. unfold svgClassName. by intros ->. Qed.

(** On agent nodes, and on nodes that are not flagged, the class is the
    one of the first-match rule. *)
Lemma svgClassName_firstMatchClass (node : GraphNode.t) :
  GraphNode.type node = type_agent ∨ truthy (GraphNode.isBottleneck node) = false →
  svgClassName node = firstMatchClass node.
Proof.
  unfold svgClassName, firstMatchClass.
  intros [->| ->]; [done|]. by destruct (GraphNode.type node).
Qed.

(** Claim C7. On the graph whose only node is a start node flagged as a
    bottleneck, [generateSVG] gives the node the class [node-bottleneck],
    where first-match-wins gives [node-start]: the flag is tested after
    the class has been set from the type and replaces it. *)
Theorem C7_flagged_start_class :
  svgClassName flagged_start_node = "node-bottleneck" ∧
  firstMatchClass flagged_start_node = "node-start" ∧
  ∀ Number_toString : number → string,
    generateSVG Number_toString true flagged_start_data None None
    = Returns
        (svgOpen Number_toString default_width default_height
         +:+ svgStyle
         +:+ "<circle class=" +:+ quoted "node-bottleneck"
         +:+ " r=" +:+ quoted "20" +:+ " cx=" +:+ quoted "0"
         +:+ " cy=" +:+ quoted "0" +:+ " data-id=" +:+ quoted "start" +:+ "/>"
         +:+ "<text class=" +:+ quoted "label" +:+ " x=" +:+ quoted "0"
         +:+ " y=" +:+ quoted "35" +:+ " text-anchor=" +:+ quoted "middle"
         +:+ ">Start</text></svg>").
Proof.
  split; [done|]. split; [done|]. intros Number_toString.
  rewrite generateSVG_outcome. cbn [first_missing flagged_start_data GraphData.edges].
  unfold svgDocument. do 3 f_equal.
Qed.

(** The label of [markup_node] reaches the document as it is. *)
Example markup_data_svg :
  ∃ out, generateSVG (λ _, "0") true markup_data None None = Returns out ∧
         includes "<b>R&D</b>" out = true.
Proof. eexists. split; [vm_compute; reflexivity|]. vm_compute. reflexivity. Qed.

(** Claim C8, as stated, fails: the label text that [generateSVG]
    interpolates for [markup_node] holds [<], [>] and [&] unescaped. *)
Lemma C8_counterexample : ¬ svg_labels_escaped.
Proof.
  intros H. specialize (H markup_data markup_node).
  assert (xml_escaped (svgLabelText markup_node) = false) as Hraw
    by (vm_compute; reflexivity).
  rewrite H in Hraw; [discriminate Hraw|]. by left.
Qed.

(** Claim C8, amended. For every GraphData and every node of it, the
    document that [generateSVG] returns includes the text element of the
    node with the label of the node as it is: no character of a label is
    escaped, so that [<], [>], [&] and quotes of a label appear unchanged
    in the document. [generateSVG] returns a document exactly when the
    host has a global [document] and the source and the target of every
    edge are identifiers of nodes of the graph; otherwise the calls to
    [d3] throw. *)
Theorem C8_label_verbatim (Number_toString : number → string)
    (document_defined : bool) (data : GraphData.t)
    (width height : option number) (node : GraphNode.t) :
  node ∈ GraphData.nodes data →
  (∀ out,
     generateSVG Number_toString document_defined data width height
       = Returns out →
     includes (svgTextOpen +:+ GraphNode.label node +:+ "</text>") out = true) ∧
  ((∃ out, generateSVG Number_toString document_defined data width height
           = Returns out)
   ↔ (document_defined = true ∧ no_dangling_edges data)).
Proof.
  intros Hin. split.
  - intros out (_ & _ & ->)%generateSVG_returns. by apply svgDocument_text.
  - split.
    + intros (out & (? & ? & _)%generateSVG_returns). done.
    + intros [Hdoc Hnd]. eexists. by apply generateSVG_returns.
Qed.

Lemma C8_label_verbatim_witness :
  ∃ out, generateSVG (λ _, "0") true markup_loop_data None None = Returns out ∧
         includes (svgTextOpen +:+ "<b>R&D</b>" +:+ "</text>") out = true.
Proof.
  destruct (C8_label_verbatim (λ _, "0") true markup_loop_data None None
              markup_node) as [Hraw [_ Hret]]; [by left|].
  destruct Hret as (out & Hout).
  - split; [reflexivity|].
    intros edge ->%list_elem_of_singleton. split; by left.
  - exists out. split; [exact Hout|]. by apply Hraw.
Defined.

(** ** The sentinel nodes *)

(** Claim C10. For every workflow, a node of the graph returned by
    [generateGraphData] that is not an agent node is the start node or
    the end node, and carries no latency, no cost and no bottleneck flag;
    so a node of that graph that [generateSVG] gives the class
    [node-bottleneck], or [generateDot] the orange fill, is an agent
    node. *)
Theorem C10_sentinels_carry_nothing (workflow : Workflow.t) (node : GraphNode.t) :
  node ∈ GraphData.nodes (generateGraphData workflow) →
  (GraphNode.type node ≠ type_agent →
   (node = startNode ∨ node = endNode) ∧ carries_nothing node) ∧
  (svgClassName node = "node-bottleneck" → GraphNode.type node = type_agent) ∧
  (dotAttrs node
   = "label=" +:+ quoted (GraphNode.label node)
     +:+ ", style=filled, fillcolor=orange" →
   GraphNode.type node = type_agent).
Proof.
  rewrite generateGraphData_nodes.
  intros [->|[(s & -> & Hs)%list_elem_of_fmap| ->%list_elem_of_singleton
             ]%elem_of_app]%elem_of_cons.
  - repeat split; try done; auto.
  - repeat split; try done.
  - repeat split; try done; auto.
Qed.

Lemma C10_sentinels_carry_nothing_witness :
  (startNode = startNode ∨ startNode = endNode) ∧ carries_nothing startNode.
Proof.
  apply (C10_sentinels_carry_nothing example_workflow startNode).
  - rewrite generateGraphData_nodes. by left.
  - discriminate.
Defined.

(** ** Further properties of the graph builder *)

Lemma generateGraphData_eq (workflow : Workflow.t) :
  generateGraphData workflow
  = GraphData.mk
      (startNode ::
         map (agentNode (stepAnalysisMap workflow)) (Workflow.steps workflow)
         ++ [endNode])
      (flat_map startEdgesOf (Workflow.steps workflow)
         ++ flat_map depEdgesOf (Workflow.steps workflow)
         ++ flat_map (endEdgesOf (dependentSteps (Workflow.steps workflow)))
                     (Workflow.steps workflow)).
Proof.
  rewrite <- generateGraphData_nodes, <- generateGraphData_edges. done.
Qed.

(** Property X1. A workflow without steps, whatever its identifier and
    its stepAnalysis, gives the graph of the two nodes start and end and
    no edge. *)
Theorem X1_no_steps (i : string) (analysis : option (list StepAnalysis.t)) :
  generateGraphData (Workflow.mk i [] analysis)
  = GraphData.mk [startNode; endNode] [].
Proof. by rewrite generateGraphData_eq. Qed.

(** Steps with distinct identifiers are told apart by their identifier. *)
Lemma NoDup_id_inj (steps : list WorkflowStep.t) (s t : WorkflowStep.t) :
  NoDup (map WorkflowStep.id steps) →
  s ∈ steps → t ∈ steps → WorkflowStep.id s = WorkflowStep.id t → s = t.
Proof.
  induction steps as [|u steps IH]; intros Hnd Hs Ht Heq;
    [by apply elem_of_nil in Hs|].
  simpl in Hnd. apply NoDup_cons in Hnd as [Hfresh Hnd].
  apply elem_of_cons in Hs as [->|Hs]; apply elem_of_cons in Ht as [->|Ht];
    [done| | |by apply IH].
  - destruct Hfresh. rewrite Heq. by apply list_elem_of_fmap_2.
  - destruct Hfresh. rewrite <- Heq. by apply list_elem_of_fmap_2.
Qed.

(** With distinct identifiers, the set of lines 83-88 holds a step exactly
    when the step has a dependency. *)
Lemma dependentSteps_NoDup (steps : list WorkflowStep.t) (step : WorkflowStep.t) :
  NoDup (map WorkflowStep.id steps) → step ∈ steps →
  WorkflowStep.id step ∈ dependentSteps steps
  ↔ WorkflowStep.dependencies step ≠ [].
Proof.
  intros Hnd Hin. rewrite elem_of_dependentSteps. split.
  - intros (t & Ht & Hid & Hd).
    by rewrite <- (NoDup_id_inj steps t step Hnd Ht Hin Hid).
  - intros Hd. by exists step.
Qed.

Lemma length_flat_map_filter {A B : Type} (P : A → Prop)
    `{!∀ x, Decision (P x)} (f : A → list B) (l : list A) :
  (∀ x, x ∈ l → length (f x) = if decide (P x) then 1 else 0) →
  length (flat_map f l) = length (filter P l).
Proof.
  induction l as [|x l IH]; intros Hlen; [done|].
  simpl. rewrite length_app, filter_cons, IH, Hlen; [|by left|].
  - by destruct (decide (P x)).
  - intros y ?. apply Hlen. by right.
Qed.

Lemma length_flat_map_sum {A B : Type} (f : A → list B) (l : list A) :
  length (flat_map f l) = sum_list_with (λ x, length (f x)) l.
Proof.
  induction l as [|x l IH]; [done|]. simpl. by rewrite length_app, IH.
Qed.

(** Property X2. When the steps have pairwise distinct identifiers, the
    graph has two edges for each step without dependency (one from start
    and one to end) and one edge for each dependency of each step, and no
    other edge. *)
Theorem X2_edge_count (workflow : Workflow.t) :
  NoDup (step_ids workflow) →
  length (GraphData.edges (generateGraphData workflow))
  = 2 * length (root_steps (Workflow.steps workflow))
    + total_dependencies (Workflow.steps workflow).
Proof.
  intros Hnd. rewrite generateGraphData_edges, !length_app.
  rewrite (length_flat_map_filter
             (λ step, WorkflowStep.dependencies step = []) startEdgesOf).
  2:{ intros s _. unfold startEdgesOf.
      by destruct (WorkflowStep.dependencies s). }
  rewrite (length_flat_map_filter
             (λ step, WorkflowStep.dependencies step = [])
             (endEdgesOf (dependentSteps (Workflow.steps workflow)))).
  2:{ intros s Hs. unfold endEdgesOf.
      pose proof (dependentSteps_NoDup _ s Hnd Hs) as Hiff.
      destruct (decide (_ ∈ _)) as [Hin|Hout], (decide (_ = [])) as [Hd|Hd];
        try done.
      - by apply Hiff in Hin.
      - by apply Hiff in Hd. }
  rewrite length_flat_map_sum. unfold root_steps, total_dependencies, depEdgesOf.
  assert (∀ l : list WorkflowStep.t,
            sum_list_with
              (λ x, length (map (depEdge x) (WorkflowStep.dependencies x))) l
            = sum_list_with (λ x, length (WorkflowStep.dependencies x)) l) as ->.
  { intros l. induction l as [|x l IH]; [done|].
    simpl. by rewrite IH, length_map. }
  lia.
Qed.

Lemma X2_edge_count_witness :
  length (GraphData.edges (generateGraphData diamond_workflow)) = 2 * 1 + 4.
Proof.
  apply (X2_edge_count diamond_workflow).
  unfold step_ids. simpl. repeat (apply NoDup_cons; split; [set_solver|]).
  apply NoDup_nil_2.
Defined.

(** Property X3. Every dependency of every step gives an edge from the
    dependency to the step, whether or not the dependency names a step. *)
Theorem X3_dependency_edge (workflow : Workflow.t)
    (step : WorkflowStep.t) (dep : string) :
  step ∈ Workflow.steps workflow →
  dep ∈ WorkflowStep.dependencies step →
  GraphEdge.mk dep (WorkflowStep.id step) None
    ∈ GraphData.edges (generateGraphData workflow).
Proof.
  intros Hs Hd. apply elem_of_edges. exists step. split; [done|].
  right; left. apply elem_of_depEdgesOf. by exists dep.
Qed.

Lemma X3_dependency_edge_witness :
  GraphEdge.mk "ghost" "s1" None
    ∈ GraphData.edges (generateGraphData dangling_workflow).
Proof.
  apply (X3_dependency_edge dangling_workflow
           (WorkflowStep.mk "s1" "a1" "Solo" ["ghost"] None None) "ghost");
    by left.
Defined.

(** Property X4. Every step is the target of an edge: of the edge from
    start when it has no dependency, of an edge from one of its
    dependencies otherwise. *)
Theorem X4_incoming_edge (workflow : Workflow.t) (step : WorkflowStep.t) :
  step ∈ Workflow.steps workflow →
  ∃ edge, edge ∈ GraphData.edges (generateGraphData workflow) ∧
    GraphEdge.target edge = WorkflowStep.id step ∧
    (WorkflowStep.dependencies step = [] ∧ GraphEdge.source edge = "start"
     ∨ GraphEdge.source edge ∈ WorkflowStep.dependencies step).
Proof.
  intros Hs. destruct (WorkflowStep.dependencies step) as [|d deps] eqn:Hd.
  - exists (startEdge step). split; [|by split; [|left]].
    apply elem_of_edges. exists step. split; [done|].
    left. by apply elem_of_startEdgesOf.
  - exists (depEdge step d). split; [|split; [done|right; by left]].
    apply elem_of_edges. exists step. split; [done|].
    right; left. apply elem_of_depEdgesOf. exists d. rewrite Hd.
    split; [by left|done].
Qed.

Lemma X4_incoming_edge_witness :
  ∃ edge, edge ∈ GraphData.edges (generateGraphData example_workflow) ∧
    GraphEdge.target edge = "s2" ∧
    (["s1"] = [] ∧ GraphEdge.source edge = "start"
     ∨ GraphEdge.source edge ∈ ["s1"]).
Proof.
  apply (X4_incoming_edge example_workflow example_s2).
  right; by left.
Defined.

(** Property X5. When no step is called [end], the graph has the edge
    from [x] to end exactly when [x] identifies a step and no step
    identified by [x] has a dependency: the steps connected to end are
    those without dependency, whether or not other steps depend on
    them. *)
Theorem X5_end_edges (workflow : Workflow.t) (x : string) :
  "end" ∉ step_ids workflow →
  GraphEdge.mk x "end" None ∈ GraphData.edges (generateGraphData workflow)
  ↔ (x ∈ step_ids workflow ∧
     ∀ step, step ∈ Workflow.steps workflow → WorkflowStep.id step = x →
             WorkflowStep.dependencies step = []).
Proof.
  intros Hend.
  assert (∀ step, step ∈ Workflow.steps workflow →
                  WorkflowStep.id step ≠ "end") as Hne.
  { intros s Hs Heq. apply Hend. rewrite <- Heq.
    by apply list_elem_of_fmap_2. }
  rewrite generateGraphData_edges, !elem_of_app, endEdge_iff.
  unfold step_ids. rewrite list_elem_of_fmap. split.
  - intros [(s & Hs & [_ He]%elem_of_startEdgesOf)%elem_of_flat_map
           |[(s & Hs & (d & _ & He)%elem_of_depEdgesOf)%elem_of_flat_map
            |[(s & Hs & <-) Hall]]].
    + injection He as _ He. by destruct (Hne s Hs).
    + injection He as _ He. by destruct (Hne s Hs).
    + split; [by exists s|done].
  - intros [(s & -> & Hs) Hall]. right; right. split; [by exists s|done].
Qed.

Lemma X5_end_edges_witness :
  GraphEdge.mk "a" "end" None
    ∈ GraphData.edges (generateGraphData diamond_workflow).
Proof.
  apply (X5_end_edges diamond_workflow "a").
  - unfold step_ids. simpl. set_solver.
  - split; [unfold step_ids; simpl; set_solver|].
    intros step Hs Hid. simpl in Hs.
    repeat (apply elem_of_cons in Hs as [->|Hs]; [done || discriminate Hid|]).
    by apply elem_of_nil in Hs.
Defined.

(** Property X6. No edge that the builder returns has a label. *)
Theorem X6_edges_without_label (workflow : Workflow.t) (edge : GraphEdge.t) :
  edge ∈ GraphData.edges (generateGraphData workflow) →
  GraphEdge.label edge = None.
Proof.
  intros (s & _ & H)%elem_of_edges.
  by destruct H as [[_ ->]%elem_of_startEdgesOf
                   |[(d & _ & ->)%elem_of_depEdgesOf
                    |[_ ->]%elem_of_endEdgesOf]].
Qed.

Lemma X6_edges_without_label_witness :
  GraphEdge.label (GraphEdge.mk "s1" "s2" None) = None.
Proof.
  apply (X6_edges_without_label example_workflow).
  rewrite example_workflow_graph. simpl. set_solver.
Defined.

(** Property X7. When no step is called [start], no edge enters the start
    node; when no step is called [end] and no step depends on [end], no
    edge leaves the end node. *)
Theorem X7_sentinel_edges (workflow : Workflow.t) (edge : GraphEdge.t) :
  edge ∈ GraphData.edges (generateGraphData workflow) →
  ("start" ∉ step_ids workflow → GraphEdge.target edge ≠ "start") ∧
  ("end" ∉ step_ids workflow →
   (∀ step, step ∈ Workflow.steps workflow →
            "end" ∉ WorkflowStep.dependencies step) →
   GraphEdge.source edge ≠ "end").
Proof.
  intros (s & Hs & H)%elem_of_edges.
  assert (WorkflowStep.id s ∈ step_ids workflow) as Hid
    by by apply list_elem_of_fmap_2.
  destruct H as [[_ ->]%elem_of_startEdgesOf
                |[(d & Hd & ->)%elem_of_depEdgesOf
                 |[_ ->]%elem_of_endEdgesOf]]; simpl.
  - split; [|done]. intros Hn Heq. apply Hn. by rewrite <- Heq.
  - split.
    + intros Hn Heq. apply Hn. by rewrite <- Heq.
    + intros _ Hdeps ->. by apply (Hdeps s Hs).
  - split; [done|]. intros Hn _ Heq. apply Hn. by rewrite <- Heq.
Qed.

Lemma X7_sentinel_edges_witness :
  GraphEdge.target (GraphEdge.mk "s1" "s2" None) ≠ "start".
Proof.
  apply (X7_sentinel_edges example_workflow (GraphEdge.mk "s1" "s2" None)).
  - rewrite example_workflow_graph. simpl. set_solver.
  - unfold step_ids. simpl. set_solver.
Defined.

(** Property X8. The nodes of the graph have pairwise distinct
    identifiers exactly when the steps have pairwise distinct identifiers
    and none is called [start] or [end]. *)
Theorem X8_node_ids_distinct (workflow : Workflow.t) :
  NoDup (node_ids (generateGraphData workflow))
  ↔ (NoDup (step_ids workflow) ∧
     ("start" ∉ step_ids workflow) ∧ ("end" ∉ step_ids workflow)).
Proof.
  rewrite generateGraphData_node_ids. fold (step_ids workflow).
  rewrite NoDup_cons, NoDup_app, elem_of_app, list_elem_of_singleton.
  split.
  - intros (Hs & Hnd & He & _). repeat split; [done|tauto|].
    intros Hin. apply (He _ Hin). by apply list_elem_of_singleton.
  - intros (Hnd & Hs & He). repeat split; [|done| |apply NoDup_singleton].
    + intros [?|?]; done.
    + intros x Hx ->%list_elem_of_singleton. done.
Qed.

Lemma X8_node_ids_distinct_witness :
  NoDup (node_ids (generateGraphData example_workflow)).
Proof.
  apply (X8_node_ids_distinct example_workflow).
  unfold step_ids. simpl. split; [|split; set_solver].
  repeat (apply NoDup_cons; split; [set_solver|]). apply NoDup_nil_2.
Defined.

(** *** What the builder does not read *)

Lemma map_key_ext {A K B : Type} (key : A → K) (f : A → B) (l1 l2 : list A) :
  (∀ x y, key x = key y → f x = f y) →
  map key l1 = map key l2 → map f l1 = map f l2.
Proof.
  intros Hf. revert l2.
  induction l1 as [|x l1 IH]; intros [|y l2] Heq; try done.
  injection Heq as Hxy Heq. simpl. by rewrite (Hf x y Hxy), (IH l2 Heq).
Qed.

Lemma flat_map_key_ext {A K B : Type} (key : A → K) (f : A → list B)
    (l1 l2 : list A) :
  (∀ x y, key x = key y → f x = f y) →
  map key l1 = map key l2 → flat_map f l1 = flat_map f l2.
Proof.
  intros Hf Heq. rewrite !flat_map_concat_map.
  by rewrite (map_key_ext key f l1 l2).
Qed.

Lemma fold_left_key_ext {A K S : Type} (key : A → K) (g : S → A → S)
    (l1 l2 : list A) :
  (∀ acc x y, key x = key y → g acc x = g acc y) →
  map key l1 = map key l2 →
  ∀ acc, fold_left g l1 acc = fold_left g l2 acc.
Proof.
  intros Hg. revert l2.
  induction l1 as [|x l1 IH]; intros [|y l2] Heq acc; try done.
  injection Heq as Hxy Heq. simpl. by rewrite (Hg acc x y Hxy), (IH l2 Heq).
Qed.

Lemma step_key_eq (s t : WorkflowStep.t) :
  step_key s = step_key t →
  WorkflowStep.id s = WorkflowStep.id t ∧
  WorkflowStep.agentName s = WorkflowStep.agentName t ∧
  WorkflowStep.dependencies s = WorkflowStep.dependencies t.
Proof. unfold step_key. by intros [= -> -> ->]. Qed.

(** Property X9. The graph depends on the workflow only through the
    identifier, the agent name and the dependencies of each step, and the
    entries of stepAnalysis: the identifier of the workflow, the agent
    identifiers and the token counts are never read, and a missing
    stepAnalysis is the same as an empty one. *)
Theorem X9_unused_fields (w1 w2 : Workflow.t) :
  map step_key (Workflow.steps w1) = map step_key (Workflow.steps w2) →
  analysisEntries w1 = analysisEntries w2 →
  generateGraphData w1 = generateGraphData w2.
Proof.
  intros Hsteps Hentries. rewrite !generateGraphData_eq.
  assert (stepAnalysisMap w1 = stepAnalysisMap w2) as ->
    by (unfold stepAnalysisMap; by rewrite Hentries).
  assert (dependentSteps (Workflow.steps w1)
          = dependentSteps (Workflow.steps w2)) as ->.
  { apply (fold_left_key_ext step_key); [|done].
    intros acc x y (-> & _ & ->)%step_key_eq. done. }
  f_equal; [f_equal; f_equal|f_equal; [|f_equal]].
  - apply (map_key_ext step_key); [|done].
    intros x y (Hid & Hname & _)%step_key_eq.
    unfold agentNode. by rewrite Hid, Hname.
  - apply (flat_map_key_ext step_key); [|done].
    intros x y (Hid & _ & Hd)%step_key_eq.
    unfold startEdgesOf, startEdge. by rewrite Hid, Hd.
  - apply (flat_map_key_ext step_key); [|done].
    intros x y (Hid & _ & Hd)%step_key_eq.
    unfold depEdgesOf, depEdge. by rewrite Hid, Hd.
  - apply (flat_map_key_ext step_key); [|done].
    intros x y (Hid & _ & _)%step_key_eq.
    unfold endEdgesOf, endEdge. by rewrite Hid.
Qed.

Lemma X9_unused_fields_witness :
  generateGraphData example_workflow
  = generateGraphData
      (Workflow.mk "other"
         [ WorkflowStep.mk "s1" "x" "Fetcher" [] (Some one) None;
           WorkflowStep.mk "s2" "y" "Parser" ["s1"] None (Some two) ]
         (Some [])).
Proof. apply X9_unused_fields; reflexivity. Defined.

(** Property X10. The stepAnalysis of a workflow has no effect on the
    edges of the graph, nor on the identifiers, labels and types of its
    nodes. *)
Theorem X10_analysis_only_in_fields (workflow : Workflow.t)
    (analysis : option (list StepAnalysis.t)) :
  let g1 := generateGraphData workflow in
  let g2 := generateGraphData (with_analysis workflow analysis) in
  GraphData.edges g2 = GraphData.edges g1 ∧
  map GraphNode.id (GraphData.nodes g2) = map GraphNode.id (GraphData.nodes g1) ∧
  map GraphNode.label (GraphData.nodes g2)
    = map GraphNode.label (GraphData.nodes g1) ∧
  map GraphNode.type (GraphData.nodes g2)
    = map GraphNode.type (GraphData.nodes g1).
Proof.
  cbv zeta. rewrite !generateGraphData_edges, !generateGraphData_nodes.
  unfold with_analysis. simpl.
  split; [done|]. rewrite !map_app, !map_map. simpl. done.
Qed.

(** *** The analysis map, as a function of the entries *)

(** The map holds for a key the last entry with that key, if any. *)
Lemma set_entries_lookup (k : string) (l : list StepAnalysis.t)
    (m : gmap string StepAnalysis.t) :
  fold_left (λ m s, <[StepAnalysis.stepId s := s]> m) l m !! k
  = match last (filter (λ entry, StepAnalysis.stepId entry = k) l) with
    | Some entry => Some entry
    | None => m !! k
    end.
Proof.
  revert m. induction l as [|e l IH]; intros m; [done|].
  simpl. rewrite IH, filter_cons. destruct (decide _) as [Heq|Hne].
  - rewrite last_cons. destruct (last _); [done|].
    rewrite <- Heq. apply lookup_insert_eq.
  - destruct (last _); [done|]. by apply lookup_insert_ne.
Qed.

Lemma filter_known_entries (ids : list string) (k : string)
    (l : list StepAnalysis.t) :
  k ∈ ids →
  filter (λ entry, StepAnalysis.stepId entry = k)
         (filter (λ entry, StepAnalysis.stepId entry ∈ ids) l)
  = filter (λ entry, StepAnalysis.stepId entry = k) l.
Proof.
  intros Hk. induction l as [|e l IH]; [done|].
  rewrite (filter_cons (λ entry, _ ∈ ids)).
  destruct (decide (_ ∈ ids)) as [Hin|Hout].
  - rewrite !filter_cons, IH. done.
  - rewrite IH, filter_cons_False; [done|]. intros Heq. apply Hout.
    by rewrite Heq.
Qed.

(** Property X11. The entries of stepAnalysis whose stepId names no step
    are ignored: without them the graph is the same. *)
Theorem X11_unknown_entries_ignored (workflow : Workflow.t) :
  generateGraphData (with_analysis workflow (Some (known_entries workflow)))
  = generateGraphData workflow.
Proof.
  rewrite !generateGraphData_eq. unfold with_analysis. simpl.
  do 3 f_equal. apply map_ext_in. intros s Hs%list_elem_of_In.
  unfold agentNode.
  assert (stepAnalysisMap
            (Workflow.mk (Workflow.id workflow) (Workflow.steps workflow)
                         (Some (known_entries workflow)))
            !! WorkflowStep.id s
          = stepAnalysisMap workflow !! WorkflowStep.id s) as ->; [|done].
  unfold stepAnalysisMap, analysisEntries at 1. simpl.
  rewrite !set_entries_lookup. unfold known_entries.
  rewrite filter_known_entries; [done|].
  by apply list_elem_of_fmap_2.
Qed.

(** ** Further properties of the renderers *)

Lemma includes_refl (pat : string) : includes pat pat = true.
Proof.
  apply includes_starts_with.
  rewrite <- (append_nil_r pat) at 2. apply starts_with_app.
Qed.


(** The graph of [dangling_workflow] cannot be rendered as SVG. *)
Example dangling_workflow_svg (Number_toString : number → string) :
  generateSVG Number_toString true (generateGraphData dangling_workflow)
              None None
  = Throws (Error "node not found: ghost").
Proof. rewrite generateSVG_outcome. vm_compute. reflexivity. Qed.

(** Property X12. How [generateSVG] completes. Without a global
    [document] it throws the ReferenceError of [d3.select]. With one, if
    some edge has a source or a target that is no node identifier, it
    throws [node not found:] followed by the first such endpoint.
    Otherwise it returns a document, which starts with the opening of the
    [svg] tag and ends with its closing tag. *)
Theorem X12_svg_document (Number_toString : number → string)
    (document_defined : bool) (data : GraphData.t)
    (width height : option number) :
  match generateSVG Number_toString document_defined data width height with
  | Returns out =>
      document_defined = true ∧ no_dangling_edges data ∧
      starts_with ("<svg width=" +:+ dq) out = true ∧
      ends_with "</svg>" out = true
  | Throws (ReferenceError message) =>
      document_defined = false ∧ message = "document is not defined"
  | Throws (Error message) =>
      document_defined = true ∧
      ∃ x, first_missing (node_ids data) (GraphData.edges data) = Some x ∧
           message = "node not found: " +:+ x
  end.
Proof.
  rewrite generateSVG_outcome. destruct document_defined; [|done].
  destruct (first_missing _ _) as [x|] eqn:Hmiss.
  - split; [done|]. by exists x.
  - split; [done|]. split; [by apply first_missing_None|].
    unfold svgDocument. split.
    + unfold svgOpen, quoted. rewrite !append_assoc.
      rewrite <- (append_assoc "<svg width=" dq). apply starts_with_app.
    + rewrite <- !append_assoc. apply ends_with_app.
Qed.

(** Every node has its circle element in the document. *)
Lemma svgDocument_circle (Number_toString : number → string)
    (data : GraphData.t) (width height : option number) (node : GraphNode.t) :
  node ∈ GraphData.nodes data →
  includes (svgCircle node)
           (svgDocument Number_toString data width height) = true.
Proof.
  intros Hin. unfold svgDocument.
  do 3 apply includes_app_r. apply includes_app_l.
  apply (includes_join _ _ (svgCircle node +:+ svgText node)).
  - by apply (list_elem_of_fmap_2 (λ node, svgCircle node +:+ svgText node)).
  - apply includes_app_l, includes_refl.
Qed.

(** Property X13. A document that [generateSVG] returns is the opening
    tag, the style block, one [line] element for each edge, a [circle]
    and a [text] element for each node in the order of the node list, and
    the closing tag. The [line] elements are all the same: the
    simulation has replaced the endpoints of the edges by node objects,
    which print as [[object Object]], so that no identifier of an edge
    endpoint reaches the document. The [circle] element of every node,
    with its class and identifier, is included. *)
Theorem X13_svg_elements (Number_toString : number → string)
    (document_defined : bool) (data : GraphData.t)
    (width height : option number) (out : string) :
  generateSVG Number_toString document_defined data width height
    = Returns out →
  out
  = svgOpen Number_toString (default default_width width)
                            (default default_height height)
    +:+ svgStyle
    +:+ join (replicate (length (GraphData.edges data)) objectLine)
    +:+ join (map (λ node, svgCircle node +:+ svgText node)
                  (GraphData.nodes data))
    +:+ "</svg>" ∧
  ∀ node, node ∈ GraphData.nodes data → includes (svgCircle node) out = true.
Proof.
  intros (_ & _ & ->)%generateSVG_returns. split; [done|].
  intros node Hin. by apply svgDocument_circle.
Qed.

Lemma X13_svg_elements_witness :
  includes (svgCircle startNode)
           (svgDocument (λ _, "0") (generateGraphData example_workflow)
                        None None) = true.
Proof.
  apply (X13_svg_elements (λ _, "0") true (generateGraphData example_workflow)
           None None).
  - rewrite generateSVG_outcome. vm_compute. reflexivity.
  - rewrite generateGraphData_nodes. by left.
Defined.

(** Property X14. On a graph returned by [generateGraphData], the class
    that [generateSVG] gives a node is the one of the first-match rule:
    [node-start] for the start node, [node-end] for the end node,
    [node-bottleneck] for a flagged agent node and [node-agent] for the
    other agent nodes. *)
Theorem X14_built_graph_classes (workflow : Workflow.t) (node : GraphNode.t) :
  node ∈ GraphData.nodes (generateGraphData workflow) →
  svgClassName node = firstMatchClass node.
Proof.
  rewrite generateGraphData_nodes.
  intros [->|[(s & -> & Hs)%list_elem_of_fmap| ->%list_elem_of_singleton
             ]%elem_of_app]%elem_of_cons; [done| |done].
  apply svgClassName_firstMatchClass. by left.
Qed.

Lemma X14_built_graph_classes_witness :
  svgClassName startNode = firstMatchClass startNode.
Proof.
  apply (X14_built_graph_classes example_workflow).
  rewrite generateGraphData_nodes. by left.
Defined.





(** Property X16. For every graph, the number of occurrences of [->] in
    the DOT document is the number of edges plus the occurrences of [->]
    in the identifiers and labels of the nodes and in the sources and
    targets of the edges. *)
Theorem X16_dot_arrows (data : GraphData.t) :
  occurrences "->" (generateDot data)
  = length (GraphData.edges data)
    + sum_list_with
        (λ node, occurrences "->" (GraphNode.id node)
                 + occurrences "->" (GraphNode.label node))
        (GraphData.nodes data)
    + sum_list_with
        (λ edge, occurrences "->" (GraphEdge.source edge)
                 + occurrences "->" (GraphEdge.target edge))
        (GraphData.edges data).
Proof. apply occurrences_generateDot. Qed.

(** Property X17. The DOT document is the three opening lines, then one
    line for each node in the order of the node list, then one line for
    each edge in the order of the edge list, then the closing brace and a
    newline; for an empty graph it is the opening lines and the closing
    line. *)
Theorem X17_dot_layout (data : GraphData.t) :
  generateDot data
  = dotHeader +:+ join (map dotNode (GraphData.nodes data))
      +:+ join (map dotEdge (GraphData.edges data)) +:+ "}" +:+ nl.
Proof. apply generateDot_lines. Qed.

Lemma node_key_eq (x y : GraphNode.t) :
  node_key x = node_key y →
  GraphNode.id x = GraphNode.id y ∧ GraphNode.label x = GraphNode.label y ∧
  GraphNode.type x = GraphNode.type y ∧
  truthy (GraphNode.isBottleneck x) = truthy (GraphNode.isBottleneck y).
Proof. unfold node_key. by intros [= -> -> -> ->]. Qed.

Lemma edge_key_eq (x y : GraphEdge.t) :
  edge_key x = edge_key y →
  GraphEdge.source x = GraphEdge.source y ∧
  GraphEdge.target x = GraphEdge.target y.
Proof. unfold edge_key. by intros [= -> ->]. Qed.

Lemma first_missing_key_ext (ids : list string) (e1 e2 : list GraphEdge.t) :
  map edge_key e1 = map edge_key e2 →
  first_missing ids e1 = first_missing ids e2.
Proof.
  revert e2. induction e1 as [|x e1 IH]; intros [|y e2] Heq; try done.
  injection Heq as Hs Ht Heq.
  simpl. by rewrite Hs, Ht, (IH e2 Heq).
Qed.

(** Property X18. The two renderers read of a node only its identifier,
    its label, its type and whether its bottleneck flag is [true], and of
    an edge only its source and its target: two graphs that agree on
    these give the same DOT document and make [generateSVG] complete in
    the same way, with the same document or the same error. Latency, cost
    and edge labels are never written, and a flag that is [false] is
    rendered like a missing one. *)
Theorem X18_unrendered_fields (d1 d2 : GraphData.t) :
  map node_key (GraphData.nodes d1) = map node_key (GraphData.nodes d2) →
  map edge_key (GraphData.edges d1) = map edge_key (GraphData.edges d2) →
  generateDot d1 = generateDot d2 ∧
  ∀ (Number_toString : number → string) (document_defined : bool)
    (width height : option number),
    generateSVG Number_toString document_defined d1 width height
    = generateSVG Number_toString document_defined d2 width height.
Proof.
  intros Hnodes Hedges. split.
  - rewrite !generateDot_lines.
    rewrite (map_key_ext node_key dotNode _ _ ltac:(
               intros x y (Hi & Hl & Ht & Hb)%node_key_eq;
               unfold dotNode, dotAttrs; by rewrite Hi, Hl, Ht, Hb) Hnodes).
    rewrite (map_key_ext edge_key dotEdge _ _ ltac:(
               intros x y (Hs & Ht)%edge_key_eq;
               unfold dotEdge; by rewrite Hs, Ht) Hedges).
    done.
  - intros Number_toString document_defined width height.
    rewrite !generateSVG_outcome. unfold node_ids, svgDocument.
    rewrite (map_key_ext node_key GraphNode.id _ _ ltac:(
               by intros x y (Hi & _)%node_key_eq) Hnodes).
    rewrite (first_missing_key_ext _ _ _ Hedges).
    rewrite (map_key_ext node_key (λ node, svgCircle node +:+ svgText node)
               _ _ ltac:(
               intros x y (Hi & Hl & Ht & Hb)%node_key_eq;
               unfold svgCircle, svgText, svgLabelText, svgClassName;
               by rewrite Hi, Hl, Ht, Hb) Hnodes).
    assert (length (GraphData.edges d1) = length (GraphData.edges d2)) as ->.
    { by rewrite <- (length_map edge_key (GraphData.edges d1)), Hedges,
                 length_map. }
    done.
Qed.

Lemma X18_unrendered_fields_witness :
  let d1 :=
    GraphData.mk [GraphNode.mk "s1" "A" type_agent (Some one) None (Some false)]
                 [GraphEdge.mk "s1" "s1" (Some "loop")] in
  let d2 :=
    GraphData.mk [GraphNode.mk "s1" "A" type_agent None (Some two) None]
                 [GraphEdge.mk "s1" "s1" None] in
  generateDot d1 = generateDot d2 ∧
  generateSVG (λ _, "0") true d1 None None
  = generateSVG (λ _, "0") true d2 None None.
Proof.
  intros d1 d2.
  destruct (X18_unrendered_fields d1 d2 eq_refl eq_refl) as [Hdot Hsvg].
  split; [exact Hdot | apply Hsvg].
Defined.

(** ** The builder and the renderers together *)



(** ** More on the edges of the builder *)

(** Property X20. The set that decides the end edges holds an identifier
    exactly when a step with that identifier has at least one
    dependency. *)
Theorem X20_dependent_set (steps : list WorkflowStep.t) (x : string) :
  x ∈ dependentSteps steps
  ↔ ∃ step, step ∈ steps ∧ WorkflowStep.id step = x
            ∧ WorkflowStep.dependencies step ≠ [].
Proof. apply elem_of_dependentSteps. Qed.

Lemma X20_dependent_set_witness :
  "s2" ∈ dependentSteps (Workflow.steps example_workflow).
Proof.
  apply (X20_dependent_set (Workflow.steps example_workflow) "s2").
  exists example_s2. split; [|done]. simpl. set_solver.
Defined.

Lemma count_edges_other_source (src tgt : string) (l : list GraphEdge.t) :
  (∀ edge, edge ∈ l → GraphEdge.source edge ≠ src) →
  count_edges src tgt l = 0.
Proof.
  unfold count_edges. induction l as [|e l IH]; intros H; [done|].
  rewrite filter_cons_False.
  - apply IH. intros e' ?. apply H. by right.
  - intros [? _]. by apply (H e); [left|].
Qed.

Lemma count_edges_depEdges (step : WorkflowStep.t) (dep : string)
    (deps : list string) :
  count_edges dep (WorkflowStep.id step) (map (depEdge step) deps)
  = length (filter (λ d, d = dep) deps).
Proof.
  unfold count_edges. induction deps as [|d deps IH]; [done|].
  simpl. rewrite !filter_cons. simpl.
  destruct (decide (d = dep)) as [->|Hne].
  - rewrite decide_True by done. simpl. by rewrite IH.
  - rewrite decide_False by (intros [? _]; done). done.
Qed.

(** Property X21. Dependency edges are not deduplicated: when the steps
    have pairwise distinct identifiers, for a step that is not called
    [end] and an identifier other than [start], the graph has as many
    edges from that identifier to the step as the dependency list of the
    step has occurrences of it. *)
Theorem X21_dependency_edge_count (workflow : Workflow.t)
    (step : WorkflowStep.t) (dep : string) :
  NoDup (step_ids workflow) →
  step ∈ Workflow.steps workflow →
  WorkflowStep.id step ≠ "end" →
  dep ≠ "start" →
  count_edges dep (WorkflowStep.id step)
              (GraphData.edges (generateGraphData workflow))
  = length (filter (λ d, d = dep) (WorkflowStep.dependencies step)).
Proof.
  intros Hnd Hin Hend Hstart.
  rewrite generateGraphData_edges, !count_edges_app.
  rewrite (count_edges_flat_map_unique depEdgesOf _ _ _ step); try done.
  - rewrite !count_edges_flat_map_0.
    + unfold depEdgesOf. by rewrite count_edges_depEdges.
    + intros t _. apply count_edges_other_target.
      intros e [_ ->]%elem_of_endEdgesOf. simpl. congruence.
    + intros t _. apply count_edges_other_source.
      intros e [_ ->]%elem_of_startEdgesOf. simpl. congruence.
  - intros t Hne. apply count_edges_other_target.
    intros e (d & _ & ->)%elem_of_depEdgesOf. done.
Qed.

Lemma X21_dependency_edge_count_witness :
  count_edges "b" "d" (GraphData.edges (generateGraphData diamond_workflow)) = 1.
Proof.
  apply (X21_dependency_edge_count diamond_workflow
           (WorkflowStep.mk "d" "g4" "D" ["b"; "c"] None None) "b").
  - unfold step_ids. simpl. repeat (apply NoDup_cons; split; [set_solver|]).
    apply NoDup_nil_2.
  - simpl. set_solver.
  - discriminate.
  - discriminate.
Defined.
